(** * fetch.py: the GitHub user and repository scraper

    A shallow embedding of the class [GitHubScraper] of
    [src/tdsp1-main/fetch.py] (l.7-147) and the properties its
    specification states about it.

    Conventions of the embedding.
    - A Python [str] is a [string] of ASCII characters
      ([PyStr.is_ascii]); on such text [str.strip], [str.upper] and
      [str.lower] are the functions of [PyStr]. On other text Python
      follows Unicode (more blanks, case mappings that change the
      length), which is not modelled: what is proved about the text a
      normalizer returns is stated for ASCII text.
    - A parsed JSON body (what [response.json()] returns) is a [json]
      value; JSON numbers are integers.
    - Python exceptions are values of [exn]; a call returns, raises, or
      runs out of fuel ([Diverge]) in one of the [while] loops.
    - The network, the clock and [time.sleep] are an arbitrary state
      machine ([World], [http_get], [now], [sleep]). Wall-clock times
      are rationals and the wait after a 403 is computed exactly; Python
      computes it in floats, with the same result wherever no rounding
      occurs and the wait is one [time.sleep] accepts ([exact_wait]).
    - Every request (with its answer), sleep, log line, print and file
      written is recorded in a trace, newest event first.
    - [main] (l.149-215) cannot be run as it is shipped: the f-string
      opened at l.179 is never closed, so Python refuses the file with a
      [SyntaxError] before any statement runs. Its statements up to
      l.175 are embedded for reference; no property of a run of the
      script rests on them. *)

From Stdlib Require Import List Bool Arith ZArith Lia Ascii String QArith Qminmax.
From Stdlib Require Import DecimalString Lqa.
Import ListNotations.

Local Open Scope string_scope.
Local Open Scope Z_scope.

Set Implicit Arguments.
Set Warnings "-register-all".

(* ------------------------------------------------------------------ *)
(** * Python strings *)

Module PyStr.

(** [str.isspace] on one ASCII character: tab, LF, VT, FF, CR, the four
    separators FS GS RS US, and the space. *)
Definition isspace (c : ascii) : bool :=
  let n := nat_of_ascii c in
  (((9 <=? n) && (n <=? 13)) || ((28 <=? n) && (n <=? 32)))%nat.

(** One character of [str.upper] and of [str.lower] on ASCII text: the
    letters a-z and A-Z change case, every other character is kept. *)
Definition upper_char (c : ascii) : ascii :=
  let n := nat_of_ascii c in
  if ((97 <=? n) && (n <=? 122))%nat then ascii_of_nat (n - 32) else c.

Definition lower_char (c : ascii) : ascii :=
  let n := nat_of_ascii c in
  if ((65 <=? n) && (n <=? 90))%nat then ascii_of_nat (n + 32) else c.

Fixpoint map_chars (f : ascii -> ascii) (s : string) : string :=
  match s with
  | EmptyString => EmptyString
  | String c s' => String (f c) (map_chars f s')
  end.

Definition upper : string -> string := map_chars upper_char.
Definition lower : string -> string := map_chars lower_char.

(** [s.lstrip(chars)] for a predicate on characters: drops the longest
    prefix made of characters that satisfy [p]. *)
Fixpoint lstrip_by (p : ascii -> bool) (s : string) : string :=
  match s with
  | EmptyString => EmptyString
  | String c s' => if p c then lstrip_by p s' else s
  end.

(** [s.rstrip(chars)]: drops the longest such suffix. *)
Fixpoint rstrip_by (p : ascii -> bool) (s : string) : string :=
  match s with
  | EmptyString => EmptyString
  | String c s' =>
      match rstrip_by p s' with
      | EmptyString => if p c then EmptyString else String c EmptyString
      | r => String c r
      end
  end.

(** [s.strip()] on ASCII text. *)
Definition strip (s : string) : string := rstrip_by isspace (lstrip_by isspace s).

Fixpoint mem_char (c : ascii) (chars : string) : bool :=
  match chars with
  | EmptyString => false
  | String d chars' => Ascii.eqb c d || mem_char c chars'
  end.

(** [s.lstrip(chars)] *)
Definition lstrip (chars s : string) : string :=
  lstrip_by (fun c => mem_char c chars) s.

(** The first character satisfies [p]. *)
Definition starts_by (p : ascii -> bool) (s : string) : bool :=
  match s with
  | EmptyString => false
  | String c _ => p c
  end.

(** The last character satisfies [p]. *)
Fixpoint ends_by (p : ascii -> bool) (s : string) : bool :=
  match s with
  | EmptyString => false
  | String c EmptyString => p c
  | String _ s' => ends_by p s'
  end.

(** Every character satisfies [p]. *)
Fixpoint all_chars (p : ascii -> bool) (s : string) : bool :=
  match s with
  | EmptyString => true
  | String c s' => p c && all_chars p s'
  end.

(** The text is ASCII: every character is below 128. *)
Definition is_ascii (s : string) : bool :=
  all_chars (fun c => (nat_of_ascii c <? 128)%nat) s.

(** [str(n)] for an [int]. *)
Definition of_Z (n : Z) : string := NilZero.string_of_int (Z.to_int n).

Definition is_digit (c : ascii) : bool :=
  let n := nat_of_ascii c in ((48 <=? n) && (n <=? 57))%nat.

Definition digit_val (c : ascii) : Z := Z.of_nat (nat_of_ascii c) - 48.

(** The digits of an [int(...)] literal, most significant first: single
    underscores are allowed between digits. [prev] tells whether the
    previous character was a digit. *)
Fixpoint parse_digits (prev : bool) (acc : Z) (s : string) : option Z :=
  match s with
  | EmptyString => if prev then Some acc else None
  | String c s' =>
      if is_digit c then parse_digits true (10 * acc + digit_val c) s'
      else if Ascii.eqb c "_" then
             (if prev then parse_digits false acc s' else None)
           else None
  end.

(** The blanks [int(s)] skips at both ends: tab, LF, VT, FF, CR and the
    space. The separators FS GS RS US, which [str.strip] removes, are
    not among them. *)
Definition int_space (c : ascii) : bool :=
  let n := nat_of_ascii c in
  (((9 <=? n) && (n <=? 13)) || (n =? 32))%nat.

(** Before it parses, [int(s)] reads a blank that is not ASCII as a
    space; in the Latin-1 text of a header value those are NEL and the
    no-break space. *)
Definition int_char (c : ascii) : ascii :=
  let n := nat_of_ascii c in
  if ((n =? 133) || (n =? 160))%nat then " "%char else c.

Fixpoint count_chars (p : ascii -> bool) (s : string) : nat :=
  match s with
  | EmptyString => O
  | String c s' => ((if p c then 1 else 0) + count_chars p s')%nat
  end.

(** The default of [sys.get_int_max_str_digits()]. *)
Definition max_str_digits : nat := 4300.

(** [int(s)] for a [str] in base 10; [None] is Python's [ValueError],
    which a literal of more than [max_str_digits] digits raises too. *)
Definition to_Z (s : string) : option Z :=
  let t := rstrip_by int_space (lstrip_by int_space (map_chars int_char s)) in
  if (max_str_digits <? count_chars is_digit t)%nat then None
  else match t with
       | String "-" d => option_map Z.opp (parse_digits false 0 d)
       | String "+" d => parse_digits false 0 d
       | d => parse_digits false 0 d
       end.

End PyStr.

(* ------------------------------------------------------------------ *)
(** * Python values and exceptions *)

(** What [response.json()] can return, and so every value the scraper
    handles. A [dict] keeps its keys in insertion order. *)
Inductive json : Type :=
| JNull
| JBool (b : bool)
| JNum (n : Z)
| JStr (s : string)
| JArr (items : list json)
| JObj (fields : list (string * json)).

(** The exceptions the script can run into. [RequestException] stands for
    what [requests.get] itself raises (connection errors, timeouts, a URL
    without a scheme); [HTTPError] is what [raise_for_status] raises. *)
Inductive exn : Type :=
| KeyError (key : string)
| TypeError
| AttributeError
| ValueError
| JSONDecodeError
| RequestException (what : string)
| HTTPError (status : Z) (text : string).

(** A pure computation that may raise. *)
Definition result (A : Type) : Type := (exn + A)%type.

Definition ok {A} (a : A) : result A := inr a.
Definition raise {A} (e : exn) : result A := inl e.

Definition rbind {A B} (r : result A) (k : A -> result B) : result B :=
  match r with
  | inl e => inl e
  | inr a => k a
  end.

Declare Scope result_scope.
Delimit Scope result_scope with result.
Notation "'let?' x ':=' r 'in' k" := (rbind r (fun x => k))
  (at level 10, x name, r at level 100, k at level 200) : result_scope.

Module Py.

Local Open Scope result_scope.

(** [bool(v)], Python's truth value. *)
Definition truthy (v : json) : bool :=
  match v with
  | JNull => false
  | JBool b => b
  | JNum n => negb (n =? 0)
  | JStr s => negb (String.eqb s "")
  | JArr l => match l with [] => false | _ => true end
  | JObj f => match f with [] => false | _ => true end
  end.

Fixpoint lookup (k : string) (fields : list (string * json)) : option json :=
  match fields with
  | [] => None
  | (k', v) :: rest => if String.eqb k k' then Some v else lookup k rest
  end.

(** [v[k]] for a [str] key [k]: only a [dict] can be subscripted so. *)
Definition getitem (v : json) (k : string) : result json :=
  match v with
  | JObj f => match lookup k f with
              | Some x => ok x
              | None => raise (KeyError k)
              end
  | _ => raise TypeError
  end.

(** [v.get(k)]: a method of [dict] alone. *)
Definition get (v : json) (k : string) : result json :=
  match v with
  | JObj f => match lookup k f with
              | Some x => ok x
              | None => ok JNull
              end
  | _ => raise AttributeError
  end.

Fixpoint chars_of (s : string) : list json :=
  match s with
  | EmptyString => []
  | String c s' => JStr (String c EmptyString) :: chars_of s'
  end.

(** The elements [for x in v] goes through. *)
Definition iter (v : json) : result (list json) :=
  match v with
  | JArr l => ok l
  | JObj f => ok (map (fun kv => JStr (fst kv)) f)
  | JStr s => ok (chars_of s)
  | _ => raise TypeError
  end.

(** [len(v)] *)
Definition len (v : json) : result Z :=
  match v with
  | JArr l => ok (Z.of_nat (List.length l))
  | JObj f => ok (Z.of_nat (List.length f))
  | JStr s => ok (Z.of_nat (String.length s))
  | _ => raise TypeError
  end.

(** [l[:n]] *)
Definition slice_to {A} (n : Z) (l : list A) : list A :=
  if 0 <=? n then firstn (Z.to_nat n) l
  else firstn (List.length l - Z.to_nat (- n)) l.

Definition hex_digit (n : nat) : ascii :=
  if (n <? 10)%nat then ascii_of_nat (48 + n) else ascii_of_nat (87 + n).

(** One character inside [repr] of a [str] quoted with [q]. *)
Definition repr_char (q c : ascii) : string :=
  let n := nat_of_ascii c in
  if Ascii.eqb c q || Ascii.eqb c "\" then String "\" (String c "")
  else if (n =? 9)%nat then "\t"
  else if (n =? 10)%nat then "\n"
  else if (n =? 13)%nat then "\r"
  else if ((n <? 32) || (126 <? n))%nat
       then String "\" (String "x" (String (hex_digit (n / 16))
                                      (String (hex_digit (n mod 16)) "")))
  else String c "".

Fixpoint repr_chars (q : ascii) (s : string) : string :=
  match s with
  | EmptyString => EmptyString
  | String c s' => repr_char q c ++ repr_chars q s'
  end.

(** [repr(s)] for a [str]: single quotes, unless the text has a single
    quote and no double quote. *)
Definition dquote : ascii := ascii_of_nat 34.

Definition repr_str (s : string) : string :=
  let q := if PyStr.mem_char "'" s && negb (PyStr.mem_char dquote s)
           then dquote else "'"%char in
  String q (repr_chars q s ++ String q "").

Definition join_comma (l : list string) : string := String.concat ", " l.

(** [repr(v)] *)
Fixpoint repr (v : json) : string :=
  match v with
  | JNull => "None"
  | JBool true => "True"
  | JBool false => "False"
  | JNum n => PyStr.of_Z n
  | JStr s => repr_str s
  | JArr l => "[" ++ join_comma (map repr l) ++ "]"
  | JObj f =>
      "{" ++ join_comma (map (fun kv => repr_str (fst kv) ++ ": " ++ repr (snd kv)) f)
          ++ "}"
  end.

(** [str(v)], which is also what an f-string puts in for [{v}]. *)
Definition str (v : json) : string :=
  match v with
  | JStr s => s
  | _ => repr v
  end.

End Py.

(* ------------------------------------------------------------------ *)
(** * The field normalizers *)

(** One row of [users.csv]: the [cleaned_data] dict of [search_users]. *)
Record user_row : Type := {
  u_login : json;
  u_name : json;
  u_company : string;
  u_location : json;
  u_email : json;
  u_hireable : string;
  u_bio : json;
  u_public_repos : json;
  u_followers : json;
  u_following : json;
  u_created_at : json
}.

(** One row of [repositories.csv]: the [repo_data] dict of
    [get_user_repositories]. *)
Record repo_row : Type := {
  r_login : json;
  r_full_name : json;
  r_created_at : json;
  r_stargazers_count : json;
  r_watchers_count : json;
  r_language : json;
  r_has_projects : string;
  r_has_wiki : string;
  r_license_name : json
}.

Section Normalizers.

Local Open Scope result_scope.

(** [GitHubScraper.clean_company_name] *)
Definition clean_company_name (company : json) : result string :=
  if negb (Py.truthy company) then ok ""
  else match company with
       | JStr s => ok (PyStr.upper (PyStr.lstrip "@" (PyStr.strip s)))
       | _ => raise AttributeError
       end.

(** [d[k] if d[k] else ""] *)
Definition item_or_empty (d : json) (k : string) : result json :=
  let? c := Py.getitem d k in
  if Py.truthy c then Py.getitem d k else ok (JStr "").

(** [str(d['hireable']).lower() if d['hireable'] is not None else ""] *)
Definition hireable_text (d : json) : result string :=
  let? h := Py.getitem d "hireable" in
  match h with
  | JNull => ok ""
  | _ => let? h' := Py.getitem d "hireable" in ok (PyStr.lower (Py.str h'))
  end.

(** [repo['license']['key'] if repo.get('license') else ""] *)
Definition license_key (repo : json) : result json :=
  let? l := Py.get repo "license" in
  if Py.truthy l
  then (let? lic := Py.getitem repo "license" in Py.getitem lic "key")
  else ok (JStr "").

(** The dict display bound to [cleaned_data] in [search_users]; its
    values are evaluated top to bottom. *)
Definition cleaned_data (user_data : json) : result user_row :=
  let? login := Py.getitem user_data "login" in
  let? name := item_or_empty user_data "name" in
  let? company := (let? c := Py.get user_data "company" in clean_company_name c) in
  let? location := item_or_empty user_data "location" in
  let? email := item_or_empty user_data "email" in
  let? hireable := hireable_text user_data in
  let? bio := item_or_empty user_data "bio" in
  let? public_repos := Py.getitem user_data "public_repos" in
  let? followers := Py.getitem user_data "followers" in
  let? following := Py.getitem user_data "following" in
  let? created_at := Py.getitem user_data "created_at" in
  ok {| u_login := login; u_name := name; u_company := company;
        u_location := location; u_email := email; u_hireable := hireable;
        u_bio := bio; u_public_repos := public_repos;
        u_followers := followers; u_following := following;
        u_created_at := created_at |}.

(** The dict display bound to [repo_data] in [get_user_repositories]. *)
Definition repo_data (username : json) (repo : json) : result repo_row :=
  let? full_name := Py.getitem repo "full_name" in
  let? created_at := Py.getitem repo "created_at" in
  let? stargazers_count := Py.getitem repo "stargazers_count" in
  let? watchers_count := Py.getitem repo "watchers_count" in
  let? language := item_or_empty repo "language" in
  let? has_projects := Py.getitem repo "has_projects" in
  let? has_wiki := Py.getitem repo "has_wiki" in
  let? license_name := license_key repo in
  ok {| r_login := username; r_full_name := full_name;
        r_created_at := created_at;
        r_stargazers_count := stargazers_count;
        r_watchers_count := watchers_count; r_language := language;
        r_has_projects := PyStr.lower (Py.str has_projects);
        r_has_wiki := PyStr.lower (Py.str has_wiki);
        r_license_name := license_name |}.

End Normalizers.

(* ------------------------------------------------------------------ *)
(** * Requests, responses and the trace *)

(** The arguments of one [requests.get(url, headers=..., params=...)]. *)
Record request : Type := {
  url : string;
  headers : list (string * string);
  params : option (list (string * json))
}.

(** What the script reads of a [requests.Response]: [response_json] is
    [response.json()], [None] when the body is not JSON. *)
Record response : Type := {
  status_code : Z;
  response_headers : list (string * string);
  text : string;
  response_json : option json
}.

(** [response.headers.get(name)]: header names compare without case. *)
Fixpoint headers_get (name : string) (hs : list (string * string)) : option string :=
  match hs with
  | [] => None
  | (k, v) :: rest =>
      if String.eqb (PyStr.lower k) (PyStr.lower name) then Some v
      else headers_get name rest
  end.

(** What the logger is told (the level is that of the call). *)
Inductive log_record : Type :=
| FetchingUsersPage (page : Z)
| FetchingRepositories (username : json) (page : Z)
| RateLimitHit (sleep_time : Q)
| ErrorStatus (status : Z) (body : string).

Inductive event : Type :=
| EvGet (r : request) (answer : result response)
| EvSleep (seconds : Q)
| EvLog (l : log_record)
| EvInput (prompt : string)
| EvPrint (msg : string)
| EvUsersCsv (file : string) (rows : list user_row)
| EvReposCsv (file : string) (rows : list repo_row).

(** How a call ends: it returns, it raises, or the fuel of a [while]
    loop is used up. *)
Inductive outcome (A : Type) : Type :=
| Ret (a : A)
| Raise (e : exn)
| Diverge.

Arguments Ret {A} a.
Arguments Raise {A} e.
Arguments Diverge {A}.

(** The scraper object: what [__init__] stores in [self]. *)
Record GitHubScraper : Type := {
  self_headers : list (string * string);
  base_url : string
}.

Definition __init__ (token : string) : GitHubScraper :=
  {| self_headers := [("Authorization", "token " ++ token);
                      ("Accept", "application/vnd.github.v3+json")];
     base_url := "https://api.github.com" |}.

(** [int(response.headers.get('X-RateLimit-Reset', 0))] *)
Definition rate_limit_reset (r : response) : result Z :=
  match headers_get "X-RateLimit-Reset" (response_headers r) with
  | None => ok 0
  | Some v => match PyStr.to_Z v with
              | Some n => ok n
              | None => raise ValueError
              end
  end.

(** [response.raise_for_status()] of the requests library: an
    [HTTPError] for a 4xx or 5xx status, nothing otherwise. *)
Definition raise_for_status (r : response) : result unit :=
  if (400 <=? status_code r) && (status_code r <? 600)
  then raise (HTTPError (status_code r) (text r))
  else ok tt.

(** [max(reset_time - time.time(), 0) + 1], computed exactly. Python
    computes it in floats and gets the same number when no step rounds
    (see [exact_wait]); it raises [OverflowError] for a [reset_time]
    too large for a float. *)
Definition sleep_time (reset_time : Z) (t : Q) : Q :=
  (Qmax (inject_Z reset_time - t) 0 + 1)%Q.

(** The [params] dict of the user search. *)
Definition search_params (location : string) (min_followers page : Z)
  : list (string * json) :=
  [("q", JStr ("location:" ++ location ++ " followers:>="
                  ++ PyStr.of_Z min_followers));
   ("per_page", JNum 100);
   ("page", JNum page)].

(** The [params] dict of the repository listing. *)
Definition repos_params (page : Z) : list (string * json) :=
  [("sort", JStr "pushed"); ("direction", JStr "desc");
   ("per_page", JNum 100); ("page", JNum page)].

(** The request [_make_request] sends for a [url] and [params]. *)
Definition get_request (self : GitHubScraper) (url : string)
    (params : option (list (string * json))) : request :=
  {| url := url; headers := self_headers self; params := params |}.

(** The URL [requests.get] is given: a value that is not a [str] is no
    URL once printed, and the library refuses it before any I/O, with
    [MissingSchema], [InvalidURL] or [InvalidSchema] according to how
    the value prints; each is a [RequestException]. *)
Definition url_of (v : json) : result string :=
  match v with
  | JStr s => ok s
  | _ => raise (RequestException "invalid URL")
  end.

(* ------------------------------------------------------------------ *)
(** * The scraper *)

Section Scraper.

(** The outside world: [http_get] is [requests.get] (it answers or
    raises, and the world moves on), [now] is [time.time()], [sleep] is
    what [time.sleep] does to the world. *)
Variable World : Type.
Variable http_get : World -> request -> result response * World.
Variable now : World -> Q.
Variable sleep : Q -> World -> World.

Record state : Type := { world : World; trace : list event }.

Definition M (A : Type) : Type := state -> outcome A * state.

(** The state once a request has been answered. *)
Definition answered (st : state) (r : request) (a : result response)
    (w : World) : state :=
  {| world := w; trace := EvGet r a :: trace st |}.

(** The state once the rate-limit wait after a 403 is over. *)
Definition waited (st : state) (t : Q) : state :=
  {| world := sleep t (world st);
     trace := EvSleep t :: EvLog (RateLimitHit t) :: trace st |}.

(** The state once a failed status has been logged. *)
Definition logged_error (st : state) (resp : response) : state :=
  {| world := world st;
     trace := EvLog (ErrorStatus (status_code resp) (text resp)) :: trace st |}.

(** The state once an event has been recorded. *)
Definition recorded (st : state) (e : event) : state :=
  {| world := world st; trace := e :: trace st |}.

(** The state once a line has been logged. *)
Definition logged (st : state) (l : log_record) : state :=
  recorded st (EvLog l).

(** What follows a call in a sequence: the rest runs on a return, and a
    raise or a lack of fuel passes through. *)
Definition and_then {A B} (r : outcome A * state)
    (k : A -> state -> outcome B * state) : outcome B * state :=
  match r with
  | (Ret a, st') => k a st'
  | (Raise e, st') => (Raise e, st')
  | (Diverge, st') => (Diverge, st')
  end.

(** A run settles when it returns or raises. *)
Definition settles {A} (r : outcome A * state) : Prop := fst r <> Diverge.

Definition ret {A} (a : A) : M A := fun st => (Ret a, st).

Definition bind {A B} (m : M A) (k : A -> M B) : M B := fun st =>
  match m st with
  | (Ret a, st') => k a st'
  | (Raise e, st') => (Raise e, st')
  | (Diverge, st') => (Diverge, st')
  end.

Definition diverge {A} : M A := fun st => (Diverge, st).

Definition lift {A} (r : result A) : M A := fun st =>
  match r with
  | inl e => (Raise e, st)
  | inr a => (Ret a, st)
  end.

Definition emit (e : event) : M unit := fun st => (Ret tt, recorded st e).

Notation "x <- m ;; k" := (bind m (fun x => k))
  (at level 61, m at next level, right associativity).
Notation "m ;;; k" := (bind m (fun _ => k))
  (at level 61, right associativity).

Definition requests_get (r : request) : M response := fun st =>
  let (res, w) := http_get (world st) r in
  let st' := {| world := w; trace := EvGet r res :: trace st |} in
  match res with
  | inl e => (Raise e, st')
  | inr resp => (Ret resp, st')
  end.

Definition time_time : M Q := fun st => (Ret (now (world st)), st).

(** [time.sleep(t)], taken to return: for a wait above about 9.2e9
    seconds Python raises [OverflowError] instead (see [longest_sleep]). *)
Definition time_sleep (t : Q) : M unit := fun st =>
  (Ret tt, {| world := sleep t (world st); trace := EvSleep t :: trace st |}).

Definition logger (l : log_record) : M unit := emit (EvLog l).

(** [for x in l: acc = body(x, acc)] *)
Fixpoint for_each {A B} (body : A -> B -> M B) (l : list A) (acc : B) : M B :=
  match l with
  | [] => ret acc
  | x :: l' => acc' <- body x acc ;; for_each body l' acc'
  end.

(** [GitHubScraper._make_request]; [fuel] bounds the attempts. *)
Fixpoint _make_request (fuel : nat) (self : GitHubScraper) (url : string)
    (params : option (list (string * json))) : M json :=
  match fuel with
  | O => diverge
  | S fuel' =>
      response <- requests_get (get_request self url params) ;;
      if status_code response =? 200 then
        match response_json response with
        | Some v => ret v
        | None => lift (raise JSONDecodeError)
        end
      else if status_code response =? 403 then
        reset_time <- lift (rate_limit_reset response) ;;
        t <- time_time ;;
        logger (RateLimitHit (sleep_time reset_time t)) ;;;
        time_sleep (sleep_time reset_time t) ;;;
        _make_request fuel' self url params
      else
        logger (ErrorStatus (status_code response) (text response)) ;;;
        lift (raise_for_status response) ;;;
        _make_request fuel' self url params
  end.

(** The body of [for user in response['items']]. *)
Definition enrich (fuel : nat) (self : GitHubScraper) (user : json)
    (users : list user_row) : M (list user_row) :=
  u <- lift (rbind (Py.getitem user "url") url_of) ;;
  user_data <- _make_request fuel self u None ;;
  row <- lift (cleaned_data user_data) ;;
  ret (users ++ [row])%list.

(** The [while True] loop of [search_users], entered with the current
    [page] and the [users] gathered so far. *)
Fixpoint search_users_from (fuel : nat) (self : GitHubScraper)
    (location : string) (min_followers : Z) (page : Z)
    (users : list user_row) : M (list user_row) :=
  match fuel with
  | O => diverge
  | S fuel' =>
      logger (FetchingUsersPage page) ;;;
      response <- _make_request fuel self (base_url self ++ "/search/users")
                    (Some (search_params location min_followers page)) ;;
      items <- lift (Py.get response "items") ;;
      if negb (Py.truthy items) then ret users
      else
        l <- lift (rbind (Py.getitem response "items") Py.iter) ;;
        users' <- for_each (enrich fuel self) l users ;;
        search_users_from fuel' self location min_followers (page + 1) users'
  end.

(** [GitHubScraper.search_users] *)
Definition search_users (fuel : nat) (self : GitHubScraper)
    (location : string) (min_followers : Z) : M (list user_row) :=
  search_users_from fuel self location min_followers 1 [].

(** The body of [for repo in response]. *)
Definition add_repo (username : json) (repo : json) (repos : list repo_row)
  : M (list repo_row) :=
  row <- lift (repo_data username repo) ;;
  ret (repos ++ [row])%list.

(** The [while len(repos) < max_repos] loop of [get_user_repositories]. *)
Fixpoint repositories_from (fuel : nat) (self : GitHubScraper)
    (username : json) (max_repos : Z) (page : Z)
    (repos : list repo_row) : M (list repo_row) :=
  if Z.of_nat (List.length repos) <? max_repos then
    match fuel with
    | O => diverge
    | S fuel' =>
        logger (FetchingRepositories username page) ;;;
        response <- _make_request fuel self
                      (base_url self ++ "/users/" ++ Py.str username ++ "/repos")
                      (Some (repos_params page)) ;;
        if negb (Py.truthy response) then ret repos
        else
          l <- lift (Py.iter response) ;;
          repos' <- for_each (add_repo username) l repos ;;
          n <- lift (Py.len response) ;;
          if n <? 100 then ret repos'
          else repositories_from fuel' self username max_repos (page + 1) repos'
    end
  else ret repos.

(** [GitHubScraper.get_user_repositories] *)
Definition get_user_repositories (fuel : nat) (self : GitHubScraper)
    (username : json) (max_repos : Z) : M (list repo_row) :=
  repos <- repositories_from fuel self username max_repos 1 [] ;;
  ret (Py.slice_to max_repos repos).

(** The body of [for user in users] in [main] (l.168-170). *)
Definition extend_with_repos (fuel : nat) (scraper : GitHubScraper)
    (user : user_row) (all_repos : list repo_row) : M (list repo_row) :=
  repos <- get_user_repositories fuel scraper (u_login user) 500 ;;
  ret (all_repos ++ repos)%list.

(** The statements of [main] from l.150 to l.175; [line] is what the
    operator types at the prompt.

    [main] cannot be run as it is shipped. Its last statement (l.178-179)
    calls [f.write] on a triple-quoted f-string that is never closed:
    the text of the README runs to the end of the file (l.215), so
    Python refuses the whole file with a [SyntaxError] and no statement
    of it is ever run. That statement is not embedded. What follows is
    what the statements before it say, with [input], [print] and
    [to_csv] taken to succeed. *)
Definition main (fuel : nat) (line : string) : M unit :=
  emit (EvInput "Enter your GitHub token: ") ;;;
  let token := PyStr.strip line in
  if String.eqb token "" then
    emit (EvPrint "Token is required. Exiting...")
  else
    let scraper := __init__ token in
    users <- search_users fuel scraper "Bangalore" 100 ;;
    emit (EvUsersCsv "users.csv" users) ;;;
    all_repos <- for_each (extend_with_repos fuel scraper) users [] ;;
    emit (EvReposCsv "repositories.csv" all_repos) ;;;
    emit (EvPrint ("Scraped " ++ PyStr.of_Z (Z.of_nat (List.length users))
                     ++ " users and "
                     ++ PyStr.of_Z (Z.of_nat (List.length all_repos))
                     ++ " repositories")).

End Scraper.

(* ------------------------------------------------------------------ *)
(** * Reference definitions and example worlds *)

(** [k] copies of a character. *)
Fixpoint repeat_char (c : ascii) (k : nat) : string :=
  match k with
  | O => ""
  | S k' => String c (repeat_char c k')
  end.

(** The character test behind [lstrip('@')]. *)
Definition is_at (c : ascii) : bool := PyStr.mem_char c "@".

(** A raw company value that is a [str] or [None]. *)
Definition company_value (c : option string) : json :=
  match c with
  | None => JNull
  | Some s => JStr s
  end.

(** The company rule in the words of the specification: trim, strip a
    single leading [@] if present, uppercase; nothing for an empty or
    absent input. *)
Definition strip_one_at (s : string) : string :=
  match s with
  | String "@" s' => s'
  | _ => s
  end.

Definition normalize_company_spec (c : option string) : string :=
  match c with
  | None => ""
  | Some s => PyStr.upper (strip_one_at (PyStr.strip s))
  end.

(** The keys [cleaned_data] subscripts: a record without one of them
    raises [KeyError]. [company] is read with [get] and is not among
    them. *)
Definition subscripted_user_keys : list string :=
  ["login"; "name"; "location"; "email"; "hireable"; "bio";
   "public_repos"; "followers"; "following"; "created_at"].

(** The record has the key [k]. *)
Definition has_key (d : json) (k : string) : Prop :=
  exists v, Py.getitem d k = ok v.

(** A [company] value the normalizer accepts: a [str], or anything
    false ([None], an empty value, zero). *)
Definition company_ok (c : json) : Prop :=
  Py.truthy c = false \/ exists s, c = JStr s.

(** A complete profile in which every optional field is null and
    [company] is left out. *)
Definition bare_profile (login : string) : json :=
  JObj [("login", JStr login); ("name", JNull); ("location", JNull);
        ("email", JNull); ("hireable", JNull); ("bio", JNull);
        ("public_repos", JNum 0); ("followers", JNum 100);
        ("following", JNum 0); ("created_at", JStr "2011-01-25T18:44:36Z")].

(** ** Reading a trace *)

(** A request with a [params] dict is a page request (of the user search
    or of a repository listing); the detail requests have none. *)
Definition is_page_request (r : request) : bool :=
  match params r with
  | Some _ => true
  | None => false
  end.

Definition is_detail_request (r : request) : bool := negb (is_page_request r).

(** How many requests of a kind a trace holds. *)
Fixpoint count_gets (kind : request -> bool) (tr : list event) : nat :=
  match tr with
  | [] => 0
  | EvGet r _ :: tr' => (if kind r then 1 else 0) + count_gets kind tr'
  | _ :: tr' => count_gets kind tr'
  end.

(** ** Servers *)

(** A 200 response with the JSON body [v]. *)
Definition ok200 (v : json) : response :=
  {| status_code := 200; response_headers := []; text := Py.repr v;
     response_json := Some v |}.

(** A server without memory, a clock that stands still. *)
Definition stateless (serve : request -> result response)
  : unit -> request -> result response * unit :=
  fun w r => (serve r, w).

Definition still_clock : unit -> Q := fun _ => 0%Q.

Definition no_sleep : Q -> unit -> unit := fun _ w => w.

(** A scripted server: it gives its answers in order whatever is asked,
    and drops the connection when the script is over; [time.sleep]
    advances its clock. *)
Record script : Type := { answers : list (result response); clock : Q }.

Definition script_get (w : script) (r : request) : result response * script :=
  match answers w with
  | [] => (raise (RequestException "ConnectionError"), w)
  | a :: rest => (a, {| answers := rest; clock := clock w |})
  end.

Definition script_now (w : script) : Q := clock w.

Definition script_sleep (t : Q) (w : script) : script :=
  {| answers := answers w; clock := (clock w + t)%Q |}.

(** ** The rate-limit rule in the words of the specification *)

(** A 403 attributable to rate limiting: one that tells when the limit
    resets. *)
Definition rate_limited (r : response) : Prop :=
  status_code r = 403
  /\ headers_get "X-RateLimit-Reset" (response_headers r) <> None.

(** A 403 that has nothing to do with rate limiting, and a body. *)
Definition forbidden : response :=
  {| status_code := 403; response_headers := [];
     text := "Resource not accessible by personal access token";
     response_json := None |}.

(** A script: one 403 without any rate-limit header, then a 200. *)
Definition forbidden_then_ok : script :=
  {| answers := [inr forbidden; inr (ok200 (JObj []))];
     clock := inject_Z 1700000000 |}.

(** A rate-limited 403 whose limit resets at [reset]. *)
Definition limited (reset : string) : response :=
  {| status_code := 403;
     response_headers := [("X-RateLimit-Remaining", "0");
                          ("X-RateLimit-Reset", reset)];
     text := "API rate limit exceeded";
     response_json := None |}.

(** A script: rate limited until five seconds from now, then a 200. *)
Definition limited_then_ok : script :=
  {| answers := [inr (limited "1700000005"); inr (ok200 (JObj []))];
     clock := inject_Z 1700000000 |}.

(** A rate-limited 403 whose reset header is no integer. *)
Definition limited_soon : script :=
  {| answers := [inr (limited "soon"); inr (ok200 (JObj []))];
     clock := inject_Z 1700000000 |}.

(** ** Waits that Python computes as they are computed here *)

(** A rational that a Python [float] holds exactly: [m * 2^e] with
    [|m| < 2^53] and [-1074 <= e <= 971]. *)
Definition is_float (q : Q) : Prop :=
  exists m e : Z,
    Z.abs m < 2 ^ 53 /\ -1074 <= e <= 971 /\ (q == inject_Z m * 2 ^ e)%Q.

(** A wait [time.sleep] is sure to accept; it raises [OverflowError]
    above about 9.2e9 seconds. *)
Definition longest_sleep : Q := inject_Z 9000000000.

(** With the reset time [reset_time] and the clock at [t], l.39 computes
    the wait without rounding, and l.41 can sleep that long: the clock
    and the reset time are floats, so are their difference and the wait,
    and the wait is at most [longest_sleep]. *)
Definition exact_wait (reset_time : Z) (t : Q) : Prop :=
  is_float t /\ is_float (inject_Z reset_time)
  /\ is_float (inject_Z reset_time - t)
  /\ is_float (sleep_time reset_time t)
  /\ (sleep_time reset_time t <= longest_sleep)%Q.

(** A fresh run in the world [w]. *)
Definition start {World : Type} (w : World) : state World :=
  {| world := w; trace := [] |}.

(** ** What a server is assumed to do *)

(** The request for one page of the user search, and for one profile. *)
Definition search_request (self : GitHubScraper) (location : string)
    (min_followers page : Z) : request :=
  get_request self (base_url self ++ "/search/users")
    (Some (search_params location min_followers page)).

Definition detail_request (self : GitHubScraper) (u : string) : request :=
  get_request self u None.

(** The request for one page of a repository listing. *)
Definition repos_request (self : GitHubScraper) (username : json)
    (page : Z) : request :=
  get_request self (base_url self ++ "/users/" ++ Py.str username ++ "/repos")
    (Some (repos_params page)).

Section Servers.

Variable World : Type.
Variable http_get : World -> request -> result response * World.

(** Whatever its state, the server answers [r] with a 200 and the JSON
    body [v]. *)
Definition replies (r : request) (v : json) : Prop :=
  forall w, exists resp,
    fst (http_get w r) = inr resp
    /\ status_code resp = 200 /\ response_json resp = Some v.

(** The search item [item] names a profile URL, and the profile served
    there normalizes to [row]. *)
Definition profile_of (self : GitHubScraper) (item : json) (row : user_row)
  : Prop :=
  exists u user_data,
    Py.getitem item "url" = ok (JStr u)
    /\ replies (detail_request self u) user_data
    /\ cleaned_data user_data = ok row.

(** From page number [page] on, the search serves the given non-empty
    pages, each with the rows its items normalize to, and then a page
    whose [items] are empty or absent. *)
Fixpoint serves_pages (self : GitHubScraper) (location : string)
    (min_followers page : Z) (pages : list (list json * list user_row))
  : Prop :=
  match pages with
  | [] =>
      exists body items,
        replies (search_request self location min_followers page) body
        /\ Py.get body "items" = ok items /\ Py.truthy items = false
  | (items, rows) :: rest =>
      items <> []
      /\ (exists body,
            replies (search_request self location min_followers page) body
            /\ Py.get body "items" = ok (JArr items))
      /\ Forall2 (profile_of self) items rows
      /\ serves_pages self location min_followers (page + 1) rest
  end.

(** Every 200 answer to the search page [page] has empty or absent
    [items]. *)
Definition empty_page (self : GitHubScraper) (location : string)
    (min_followers page : Z) : Prop :=
  forall w resp body,
    fst (http_get w (search_request self location min_followers page)) = inr resp ->
    status_code resp = 200 -> response_json resp = Some body ->
    exists items, Py.get body "items" = ok items /\ Py.truthy items = false.

End Servers.

(** ** A search with 237 results *)

Definition user_url (i : nat) : string :=
  "https://api.github.com/users/u" ++ PyStr.of_Z (Z.of_nat i).

Definition search_item (i : nat) : json :=
  JObj [("login", JStr ("u" ++ PyStr.of_Z (Z.of_nat i)));
        ("url", JStr (user_url i))].

(** Pages of 100, 100 and 37 items, and empty pages after them. *)
Definition page_numbers (page : Z) : list nat :=
  if page =? 1 then seq 0 100
  else if page =? 2 then seq 100 100
  else if page =? 3 then seq 200 37
  else [].

Definition serve237 (r : request) : result response :=
  match params r with
  | Some ps =>
      match Py.lookup "page" ps with
      | Some (JNum page) =>
          inr (ok200 (JObj [("total_count", JNum 237);
                            ("items", JArr (map search_item (page_numbers page)))]))
      | _ => inr {| status_code := 422; response_headers := [];
                    text := "Validation Failed"; response_json := None |}
      end
  | None => inr (ok200 (bare_profile (url r)))
  end.

(** The row [bare_profile] normalizes to. *)
Definition bare_row (login : string) : user_row :=
  {| u_login := JStr login; u_name := JStr ""; u_company := "";
     u_location := JStr ""; u_email := JStr ""; u_hireable := "";
     u_bio := JStr ""; u_public_repos := JNum 0; u_followers := JNum 100;
     u_following := JNum 0; u_created_at := JStr "2011-01-25T18:44:36Z" |}.

(** ** Repository listings *)

(** Page [page] (from 1) of a listing [all], 100 to the page. *)
Definition page_slice (all : list json) (page : Z) : list json :=
  firstn 100 (skipn (100 * Z.to_nat (page - 1)) all).

Section Listings.

Variable World : Type.
Variable http_get : World -> request -> result response * World.
Variable now : World -> Q.
Variable sleep : Q -> World -> World.

(** The server lists the repositories [all] of [username], in the order
    asked for (most recently pushed first), page by page. *)
Definition lists_repos (self : GitHubScraper) (username : json)
    (all : list json) : Prop :=
  forall page, 1 <= page ->
    replies http_get (repos_request self username page)
      (JArr (page_slice all page)).

(** The repositories of the users, fetched one user after the other:
    [seqs] holds what each call of [get_user_repositories] returned. *)
Inductive fetched_in_turn (fuel : nat) (scraper : GitHubScraper)
  : list user_row -> state World -> list (list repo_row) -> state World -> Prop :=
| fetched_none (st : state World) : fetched_in_turn fuel scraper [] st [] st
| fetched_next (user : user_row) (users : list user_row)
    (st st1 st2 : state World) (repos : list repo_row)
    (seqs : list (list repo_row)) :
    get_user_repositories http_get now sleep fuel scraper (u_login user) 500 st
    = (Ret repos, st1) ->
    fetched_in_turn fuel scraper users st1 seqs st2 ->
    fetched_in_turn fuel scraper (user :: users) st (repos :: seqs) st2.

End Listings.

(** A raw repository record; its owner is not the user asked for. *)
Definition sample_repo (i : nat) : json :=
  JObj [("full_name", JStr ("octocat/repo" ++ PyStr.of_Z (Z.of_nat i)));
        ("owner", JObj [("login", JStr "someone-else")]);
        ("created_at", JStr "2020-01-01T00:00:00Z");
        ("stargazers_count", JNum (Z.of_nat i));
        ("watchers_count", JNum (Z.of_nat i));
        ("language", JNull);
        ("has_projects", JBool true);
        ("has_wiki", JBool false);
        ("license", JObj [("key", JStr "mit")])].

(** The row [sample_repo] normalizes to for [username]. *)
Definition sample_row (username : json) (i : nat) : repo_row :=
  {| r_login := username;
     r_full_name := JStr ("octocat/repo" ++ PyStr.of_Z (Z.of_nat i));
     r_created_at := JStr "2020-01-01T00:00:00Z";
     r_stargazers_count := JNum (Z.of_nat i);
     r_watchers_count := JNum (Z.of_nat i);
     r_language := JStr "";
     r_has_projects := "true"; r_has_wiki := "false";
     r_license_name := JStr "mit" |}.

(** A user with 25 repositories, most recently pushed first. *)
Definition repos25 : list json := map sample_repo (seq 0 25).

(** A server for a whole run: the search finds two users on page 1, each
    profile is bare, and every user has the 25 repositories. *)
Definition serve_run (r : request) : result response :=
  match params r with
  | Some ps =>
      match Py.lookup "page" ps, Py.lookup "q" ps with
      | Some (JNum page), Some _ =>
          inr (ok200 (JObj [("items",
                 JArr (if page =? 1 then [search_item 0; search_item 1] else []))]))
      | Some (JNum page), None => inr (ok200 (JArr (page_slice repos25 page)))
      | _, _ => inr {| status_code := 422; response_headers := [];
                       text := "Validation Failed"; response_json := None |}
      end
  | None => inr (ok200 (bare_profile (url r)))
  end.

(** The 25 rows of [repos25] for [username]. *)
Definition rows25 (username : json) : list repo_row :=
  map (sample_row username) (seq 0 25).

(** Any request at all. *)
Definition any_request (r : request) : bool := true.

(** The items and the rows of one page of [serve237]. *)
Definition items237 (page : Z) : list json :=
  map search_item (page_numbers page).

Definition rows237 (page : Z) : list user_row :=
  map (fun i => bare_row (user_url i)) (page_numbers page).

(** The owner of a row is the user asked for. *)
Definition owned (username : json) (row : repo_row) : Prop :=
  r_login row = username.

(** The raw repository record normalizes to the row. *)
Definition normalizes (username : json) (repo : json) (row : repo_row) : Prop :=
  repo_data username repo = ok row.

(** ** Invariants of a run *)

Section Extends.

Variable World : Type.
Variable P : event -> Prop.

(** [st'] comes after [st]: its trace is the trace of [st] with new
    events in front of it, every one of them in [P]. *)
Definition extends_with (st st' : state World) : Prop :=
  exists new, trace st' = (new ++ trace st)%list /\ Forall P new.

End Extends.

(** How many events of a kind a trace holds. *)
Fixpoint count_events (kind : event -> bool) (tr : list event) : nat :=
  match tr with
  | [] => 0
  | e :: tr' => (if kind e then 1 else 0) + count_events kind tr'
  end.

Definition is_get (e : event) : bool :=
  match e with EvGet _ _ => true | _ => false end.

Definition is_sleep (e : event) : bool :=
  match e with EvSleep _ => true | _ => false end.

(** A request that was answered with a 403. *)
Definition is_403 (e : event) : bool :=
  match e with
  | EvGet _ (inr resp) => status_code resp =? 403
  | _ => false
  end.

(** What one call of [_make_request] for [r] may record: attempts of
    [r], waits of a second or more, and log lines. *)
Definition attempt_of (r : request) (e : event) : Prop :=
  match e with
  | EvGet r' _ => r' = r
  | EvSleep t => (1 <= t)%Q
  | EvLog (RateLimitHit t) => (1 <= t)%Q
  | EvLog (ErrorStatus _ _) => True
  | _ => False
  end.

(** The log line that opens one turn of the repository loop. *)
Definition is_fetch (e : event) : bool :=
  match e with
  | EvLog (FetchingRepositories _ _) => true
  | _ => false
  end.

(** What [get_user_repositories] may record for [username]: requests
    for a page, from 1 on, of the listing of that user, waits and log
    lines. *)
Definition listing_event (self : GitHubScraper) (username : json)
    (e : event) : Prop :=
  match e with
  | EvGet r _ => exists page, 1 <= page /\ r = repos_request self username page
  | EvSleep _ | EvLog _ => True
  | _ => False
  end.

(** What [search_users] may record: requests for a page, from 1 on, of
    the search, requests of a profile without parameters, waits and log
    lines. *)
Definition search_event (self : GitHubScraper) (location : string)
    (min_followers : Z) (e : event) : Prop :=
  match e with
  | EvGet r _ =>
      (exists page, 1 <= page
                    /\ r = search_request self location min_followers page)
      \/ (exists u, r = detail_request self u)
  | EvSleep _ | EvLog _ => True
  | _ => False
  end.

(** A search that has one more result on every page. *)
Definition serve_endless (r : request) : result response :=
  match params r with
  | Some _ => inr (ok200 (JObj [("items", JArr [search_item 0])]))
  | None => inr (ok200 (bare_profile (url r)))
  end.

(** Why a call of [_make_request] for [r] can raise [e]: the transport
    failed, a 200 body is not JSON, the reset header of a 403 is not an
    integer, or the status is a 4xx or 5xx other than 403. *)
Definition request_failure {World : Type}
    (http_get : World -> request -> result response * World)
    (r : request) (e : exn) : Prop :=
  exists w,
    fst (http_get w r) = inl e
    \/ exists resp,
         fst (http_get w r) = inr resp
         /\ ((status_code resp = 200 /\ response_json resp = None
              /\ e = JSONDecodeError)
             \/ (status_code resp = 403 /\ rate_limit_reset resp = raise e
                 /\ e = ValueError)
             \/ (400 <= status_code resp < 600 /\ status_code resp <> 403
                 /\ e = HTTPError (status_code resp) (text resp))).

(** A status the loop of [_make_request] neither returns on, nor waits
    on, nor raises on. *)
Definition passed_over (resp : response) : Prop :=
  status_code resp <> 200 /\ status_code resp <> 403
  /\ ~ (400 <= status_code resp < 600).

(** A 404, and a 204 without a body. *)
Definition not_found : response :=
  {| status_code := 404; response_headers := []; text := "Not Found";
     response_json := None |}.

Definition no_content : response :=
  {| status_code := 204; response_headers := []; text := "";
     response_json := None |}.

(** ** The repository normalizer *)

(** The keys [repo_data] subscripts; [license] is read with [get]
    first. *)
Definition subscripted_repo_keys : list string :=
  ["full_name"; "created_at"; "stargazers_count"; "watchers_count";
   "language"; "has_projects"; "has_wiki"].

(** A [license] value [repo_data] accepts: anything false (also an
    absent key), or a dict with a [key]. *)
Definition license_ok (l : json) : Prop :=
  Py.truthy l = false \/ exists k, Py.getitem l "key" = ok k.

(** [str(b).lower()] for a [bool]. *)
Definition bool_text (b : bool) : string := if b then "true" else "false".

(** A complete repository record without language and license. *)
Definition plain_repo : json :=
  JObj [("full_name", JStr "octocat/hello"); ("created_at", JStr "2011-01-26T19:01:12Z");
        ("stargazers_count", JNum 80); ("watchers_count", JNum 80);
        ("language", JNull); ("has_projects", JBool true);
        ("has_wiki", JBool false); ("license", JNull)].

(** The row is the normalization of the JSON body of a 200 answer, in
    the trace, to a request without parameters. *)
Definition fetched_row (tr : list event) (row : user_row) : Prop :=
  exists r resp user_data,
    In (EvGet r (inr resp)) tr /\ params r = None
    /\ status_code resp = 200 /\ response_json resp = Some user_data
    /\ cleaned_data user_data = ok row.

(** Every page of the search has items, each with a profile that
    normalizes. *)
Definition endless_search {World : Type}
    (http_get : World -> request -> result response * World)
    (self : GitHubScraper) (location : string) (min_followers : Z) : Prop :=
  forall page, exists body items rows,
    items <> []
    /\ replies http_get (search_request self location min_followers page) body
    /\ Py.get body "items" = ok (JArr items)
    /\ Forall2 (profile_of http_get self) items rows.

(** ** Waits within reach *)

(** No 403 answer to [r] asks for a wait that Python cannot compute or
    that [time.sleep] refuses: the reset time fits a float, the clock is
    between 0 and [2^40], and the reset is at most [longest_sleep]
    seconds ahead of the clock. *)
Definition waits_in_range {World : Type}
    (http_get : World -> request -> result response * World)
    (now : World -> Q) (r : request) : Prop :=
  forall w resp reset,
    fst (http_get w r) = inr resp -> status_code resp = 403 ->
    rate_limit_reset resp = ok reset ->
    - 2 ^ 1000 <= reset
    /\ (0 <= now (snd (http_get w r)) <= inject_Z (2 ^ 40))%Q
    /\ (inject_Z reset - now (snd (http_get w r)) <= longest_sleep)%Q.

(** A server that counts the requests: the first is rate limited until
    the clock shows 5, the others are answered 404. Its clock stands at
    0. *)
Definition limited_then_not_found (w : nat) (r : request)
  : result response * nat :=
  (match w with
   | O => inr (limited "5")
   | S _ => inr not_found
   end, S w).

Definition clock_at_0 : nat -> Q := fun _ => 0%Q.

Definition sleep_through : Q -> nat -> nat := fun _ w => w.

(** ** Items that were enriched *)

(** The search item was enriched: its profile URL was requested, the
    answer was a 200, and the body of the answer normalizes to the
    row. *)
Definition enriched (self : GitHubScraper) (tr : list event) (item : json)
    (row : user_row) : Prop :=
  exists u resp user_data,
    Py.getitem item "url" = ok (JStr u)
    /\ In (EvGet (detail_request self u) (inr resp)) tr
    /\ status_code resp = 200 /\ response_json resp = Some user_data
    /\ cleaned_data user_data = ok row.

(** A search with one user on page 1 and no one on the pages after it;
    the profile of that user is answered 403, without a reset header,
    every time it is asked for. *)
Definition serve_forbidden_profile (r : request) : result response :=
  match params r with
  | Some ps =>
      match Py.lookup "page" ps with
      | Some (JNum page) =>
          inr (ok200 (JObj [("items",
                 JArr (if page =? 1 then [search_item 0] else []))]))
      | _ => inr {| status_code := 422; response_headers := [];
                    text := "Validation Failed"; response_json := None |}
      end
  | None => inr forbidden
  end.

(* ------------------------------------------------------------------ *)
(** * Facts about the string operations *)

Module PyStrFacts.
Import PyStr.

Local Open Scope string_scope.

Section Strip.
Variable p : ascii -> bool.

Lemma lstrip_by_starts (s : string) : starts_by p (lstrip_by p s) = false.
Proof.
  induction s as [|c s IH]; simpl; [reflexivity|].
  destruct (p c) eqn:E; [exact IH | simpl; exact E].
Qed.

Lemma lstrip_by_split (s : string) :
  exists pre, s = pre ++ lstrip_by p s /\ all_chars p pre = true.
Proof.
  induction s as [|c s [pre [E A]]]; simpl.
  - exists ""; split; reflexivity.
  - destruct (p c) eqn:Pc.
    + exists (String c pre); simpl; split; [now rewrite <- E | now rewrite Pc].
    + exists ""; split; reflexivity.
Qed.

Lemma lstrip_by_fixed (s : string) : starts_by p s = false -> lstrip_by p s = s.
Proof. destruct s as [|c s]; simpl; [reflexivity | now intros ->]. Qed.

Lemma rstrip_by_ends (s : string) : ends_by p (rstrip_by p s) = false.
Proof.
  induction s as [|c s IH]; simpl; [reflexivity|].
  destruct (rstrip_by p s) as [|d r] eqn:R.
  - destruct (p c) eqn:Pc; simpl; [reflexivity | exact Pc].
  - exact IH.
Qed.

Lemma rstrip_by_split (s : string) :
  exists suf, s = rstrip_by p s ++ suf /\ all_chars p suf = true.
Proof.
  induction s as [|c s [suf [E A]]]; simpl.
  - exists ""; split; reflexivity.
  - destruct (rstrip_by p s) as [|d r] eqn:R.
    + destruct (p c) eqn:Pc.
      * exists (String c suf); simpl in *; split; [now rewrite <- E | now rewrite Pc].
      * exists suf; simpl in *; split; [now rewrite <- E | exact A].
    + exists suf; split; [simpl in *; f_equal; exact E | exact A].
Qed.

Lemma rstrip_by_fixed (s : string) : ends_by p s = false -> rstrip_by p s = s.
Proof.
  induction s as [|c s IH]; simpl; [reflexivity|].
  destruct s as [|d s'].
  - simpl; now intros ->.
  - intros H. rewrite (IH H). reflexivity.
Qed.

Lemma rstrip_by_starts (q : ascii -> bool) (s : string) :
  starts_by q s = false -> starts_by q (rstrip_by p s) = false.
Proof.
  destruct s as [|c s]; simpl; [reflexivity|].
  intros H. destruct (rstrip_by p s); [destruct (p c)|]; simpl; auto.
Qed.

Lemma ends_by_append (a b : string) :
  b <> "" -> ends_by p (a ++ b) = ends_by p b.
Proof.
  intros Hb. induction a as [|c a IH]; simpl; [reflexivity|].
  rewrite <- IH. destruct (a ++ b) eqn:E; [|reflexivity].
  destruct a; simpl in E; [contradiction | discriminate].
Qed.

End Strip.

Lemma lstrip_by_ends (p q : ascii -> bool) (s : string) :
  ends_by p s = false -> ends_by p (lstrip_by q s) = false.
Proof.
  intros H. destruct (lstrip_by_split q s) as [pre [E _]].
  destruct (lstrip_by q s) as [|c t] eqn:L; [reflexivity|].
  rewrite E, ends_by_append in H by discriminate. exact H.
Qed.

Lemma all_chars_is_at (s : string) :
  all_chars is_at s = true -> s = repeat_char "@" (String.length s).
Proof.
  induction s as [|d s IH]; simpl; [reflexivity|].
  intros H. apply andb_prop in H as [Hd Hs].
  unfold is_at in Hd; simpl in Hd. rewrite orb_false_r in Hd.
  apply Ascii.eqb_eq in Hd. subst d. now rewrite <- IH.
Qed.

(** Upper-casing moves no character into or out of the classes the
    normalizer looks at. *)
Lemma isspace_upper_char (c : ascii) : isspace (upper_char c) = isspace c.
Proof. destruct c as [[] [] [] [] [] [] [] []]; reflexivity. Qed.

Lemma at_upper_char (c : ascii) :
  Ascii.eqb (upper_char c) "@" = Ascii.eqb c "@".
Proof. destruct c as [[] [] [] [] [] [] [] []]; reflexivity. Qed.

Lemma upper_char_idem (c : ascii) : upper_char (upper_char c) = upper_char c.
Proof. destruct c as [[] [] [] [] [] [] [] []]; reflexivity. Qed.

Lemma upper_idem (s : string) : upper (upper s) = upper s.
Proof.
  unfold upper. induction s as [|c s IH]; simpl; [reflexivity|].
  now rewrite upper_char_idem, IH.
Qed.

Lemma starts_by_upper (p : ascii -> bool) (s : string) :
  (forall c, p (upper_char c) = p c) ->
  starts_by p (upper s) = starts_by p s.
Proof. intros H. destruct s; simpl; auto. Qed.

Lemma ends_by_upper (p : ascii -> bool) (s : string) :
  (forall c, p (upper_char c) = p c) ->
  ends_by p (upper s) = ends_by p s.
Proof.
  intros H. unfold upper. induction s as [|c s IH]; simpl; [reflexivity|].
  destruct s as [|d s']; simpl in *; auto.
Qed.

Lemma is_at_upper_char (c : ascii) : is_at (upper_char c) = is_at c.
Proof. unfold is_at; simpl. now rewrite at_upper_char. Qed.

End PyStrFacts.

(* ------------------------------------------------------------------ *)
(** * The company normalizer *)

Module Company.
Import PyStr PyStrFacts.

Local Open Scope string_scope.

Lemma clean_company_name_str (s : string) :
  clean_company_name (JStr s) = ok (upper (lstrip "@" (strip s))).
Proof.
  unfold clean_company_name; simpl.
  destruct (String.eqb_spec s ""); [subst; reflexivity | reflexivity].
Qed.

(** What comes out of the normalizer has no trailing whitespace, no
    leading [@], and is in upper case. *)
Lemma cleaned_shape (s : string) :
  let r := upper (lstrip "@" (strip s)) in
  ends_by isspace r = false /\ starts_by is_at r = false /\ upper r = r.
Proof.
  cbv zeta. repeat split.
  - rewrite ends_by_upper by apply isspace_upper_char.
    apply lstrip_by_ends. apply rstrip_by_ends.
  - rewrite starts_by_upper by apply is_at_upper_char.
    apply (lstrip_by_starts is_at).
  - apply upper_idem.
Qed.

Lemma clean_fixed (r : string) :
  starts_by isspace r = false -> ends_by isspace r = false ->
  starts_by is_at r = false -> upper r = r ->
  clean_company_name (JStr r) = ok r.
Proof.
  intros Hs He Ha Hu. rewrite clean_company_name_str. unfold strip, lstrip.
  rewrite (lstrip_by_fixed isspace r Hs), (rstrip_by_fixed isspace r He).
  change (fun c => mem_char c "@") with is_at.
  rewrite (lstrip_by_fixed is_at r Ha). now rewrite Hu.
Qed.

(** Cleaning a name that starts with whitespace gives a shorter name. *)
Lemma clean_shrinks (r : string) :
  starts_by isspace r = true -> clean_company_name (JStr r) <> ok r.
Proof.
  intros Hs. rewrite clean_company_name_str. intros E.
  assert (L : forall f t, String.length (map_chars f t) = String.length t).
  { intros f t; induction t; simpl; auto. }
  assert (Lp : forall p t, (String.length (lstrip_by p t) <= String.length t)%nat).
  { intros p t; induction t as [|c t IH]; simpl; [lia|].
    destruct (p c); simpl; lia. }
  assert (Rp : forall p t, (String.length (rstrip_by p t) <= String.length t)%nat).
  { intros p t; induction t as [|c t IH]; simpl; [lia|].
    destruct (rstrip_by p t); [destruct (p c)|]; simpl in *; lia. }
  injection E as E. apply (f_equal String.length) in E.
  unfold upper in E. rewrite L in E. unfold lstrip in E.
  pose proof (Lp (fun c => mem_char c "@") (strip r)) as H1.
  destruct r as [|c r]; simpl in Hs; [discriminate|].
  assert (H2 : strip (String c r) = rstrip_by isspace (lstrip_by isspace r)).
  { unfold strip; simpl. now rewrite Hs. }
  rewrite H2 in *.
  pose proof (Rp isspace (lstrip_by isspace r)) as H3.
  pose proof (Lp isspace r) as H4.
  change (String.length (String c r)) with (S (String.length r)) in E.
  lia.
Qed.

(** The trimmed text splits into its leading [@]s and the rest, and the
    rest, in upper case, is the result. *)
Lemma clean_company_name_split (s : string) :
  exists l k m r,
    s = l ++ (repeat_char "@" k ++ m) ++ r
    /\ all_chars isspace l = true /\ all_chars isspace r = true
    /\ starts_by isspace (repeat_char "@" k ++ m) = false
    /\ ends_by isspace (repeat_char "@" k ++ m) = false
    /\ starts_by is_at m = false
    /\ clean_company_name (JStr s) = ok (upper m).
Proof.
  destruct (lstrip_by_split isspace s) as [l [El Al]].
  destruct (rstrip_by_split isspace (lstrip_by isspace s)) as [r [Er Ar]].
  fold (strip s) in Er.
  destruct (lstrip_by_split is_at (strip s)) as [pre [Ep Ap]].
  apply all_chars_is_at in Ap.
  exists l, (String.length pre), (lstrip_by is_at (strip s)), r.
  rewrite <- Ap, <- Ep, <- Er, <- El.
  repeat split; auto.
  - unfold strip. apply rstrip_by_starts, lstrip_by_starts.
  - apply rstrip_by_ends.
  - apply lstrip_by_starts.
  - apply clean_company_name_str.
Qed.

(** When what is left after trimming has at most one leading [@], the
    code does what the rule with a single [@] says. *)
Lemma clean_company_name_one_at (s : string) :
  starts_by is_at (strip_one_at (strip s)) = false ->
  clean_company_name (JStr s) = ok (normalize_company_spec (Some s)).
Proof.
  intros H. rewrite clean_company_name_str. cbn [normalize_company_spec].
  do 2 f_equal. unfold lstrip. change (fun c => mem_char c "@") with is_at.
  destruct (strip s) as [|c t] eqn:E; [reflexivity|].
  cbn [lstrip_by]. destruct (is_at c) eqn:A.
  - unfold is_at in A; cbn in A. rewrite orb_false_r in A.
    apply Ascii.eqb_eq in A. subst c. cbn [strip_one_at] in *.
    now apply lstrip_by_fixed.
  - replace (strip_one_at (String c t)) with (String c t); [reflexivity|].
    unfold is_at in A; cbn in A. rewrite orb_false_r in A.
    apply Ascii.eqb_neq in A.
    destruct c as [[] [] [] [] [] [] [] []]; try reflexivity.
    now contradiction A.
Qed.

End Company.







(** The condition on the cleaned name is also necessary: a cleaned name
    of ASCII characters that begins with whitespace is changed by a
    second cleaning. *)
Lemma cleaning_again_changes_leading_space (c : option string) (r : string) :
  PyStr.is_ascii r = true ->
  clean_company_name (company_value c) = ok r ->
  clean_company_name (company_value (Some r)) = ok r ->
  PyStr.starts_by PyStr.isspace r = false.
Proof.
  intros _ _ E. destruct (PyStr.starts_by PyStr.isspace r) eqn:S; [|reflexivity].
  exfalso. exact (Company.clean_shrinks S E).
Qed.

(* ------------------------------------------------------------------ *)
(** * The user normalizer *)

Module UserRow.

Lemma item_or_empty_ok (d : json) (k : string) (v : json) :
  Py.getitem d k = ok v ->
  item_or_empty d k = ok (if Py.truthy v then v else JStr "").
Proof.
  intros E. unfold item_or_empty. rewrite E. simpl.
  destruct (Py.truthy v); reflexivity.
Qed.

Lemma hireable_text_ok (d : json) (v : json) :
  Py.getitem d "hireable" = ok v ->
  hireable_text d = ok match v with
                       | JNull => ""
                       | _ => PyStr.lower (Py.str v)
                       end.
Proof.
  intros E. unfold hireable_text. rewrite E. now destruct v.
Qed.

Lemma has_key_dict (d : json) (k : string) :
  has_key d k -> exists f, d = JObj f.
Proof.
  intros [v E]. destruct d; try discriminate E. now eexists.
Qed.

Lemma clean_company_name_ok (c : json) :
  company_ok c -> exists r, clean_company_name c = ok r
                            /\ (c = JNull -> r = "").
Proof.
  intros [F | [s ->]].
  - exists "". unfold clean_company_name. rewrite F. now split.
  - eexists. split; [apply Company.clean_company_name_str | discriminate].
Qed.

End UserRow.

(** C3, as stated, fails: a record that has [login] and lacks [name] is
    refused with [KeyError], since every field but [company] is read by
    subscript. *)
Lemma cleaned_data_login_only_raises :
  has_key (JObj [("login", JStr "octocat")]) "login"
  /\ cleaned_data (JObj [("login", JStr "octocat")]) = raise (KeyError "name").
Proof. split; [now exists (JStr "octocat") | reflexivity]. Qed.

(** C3, amended: for every raw user record that has the keys [login],
    [name], [location], [email], [hireable], [bio], [public_repos],
    [followers], [following] and [created_at], and whose [company] is
    absent, false or a string, normalization does not fail; [name],
    [location], [email], [hireable] and [bio] that are null, and a
    [company] that is null or absent, are the empty string in the row. *)
Theorem cleaned_data_never_fails (user_data : json) :
  (forall k, In k subscripted_user_keys -> has_key user_data k) ->
  (forall c, Py.get user_data "company" = ok c -> company_ok c) ->
  exists row,
    cleaned_data user_data = ok row
    /\ (Py.getitem user_data "name" = ok JNull -> u_name row = JStr "")
    /\ (Py.get user_data "company" = ok JNull -> u_company row = "")
    /\ (Py.getitem user_data "location" = ok JNull -> u_location row = JStr "")
    /\ (Py.getitem user_data "email" = ok JNull -> u_email row = JStr "")
    /\ (Py.getitem user_data "hireable" = ok JNull -> u_hireable row = "")
    /\ (Py.getitem user_data "bio" = ok JNull -> u_bio row = JStr "").
Proof.
  intros K C.
  assert (G : forall k, In k subscripted_user_keys ->
                        exists v, Py.getitem user_data k = ok v)
    by exact K.
  destruct (G "login") as [login E1]; [simpl; tauto|].
  destruct (G "name") as [name E2]; [simpl; tauto|].
  destruct (G "location") as [location E3]; [simpl; tauto|].
  destruct (G "email") as [email E4]; [simpl; tauto|].
  destruct (G "hireable") as [hireable E5]; [simpl; tauto|].
  destruct (G "bio") as [bio E6]; [simpl; tauto|].
  destruct (G "public_repos") as [public_repos E7]; [simpl; tauto|].
  destruct (G "followers") as [followers E8]; [simpl; tauto|].
  destruct (G "following") as [following E9]; [simpl; tauto|].
  destruct (G "created_at") as [created_at E10]; [simpl; tauto|].
  destruct (UserRow.has_key_dict (K "login" (or_introl eq_refl))) as [f ->].
  destruct (Py.get (JObj f) "company") as [e|c] eqn:Ec.
  { simpl in Ec. destruct (Py.lookup "company" f); discriminate Ec. }
  destruct (UserRow.clean_company_name_ok (C c eq_refl)) as [company [E11 N11]].
  pose proof (@UserRow.item_or_empty_ok _ _ _ E2) as I2.
  pose proof (@UserRow.item_or_empty_ok _ _ _ E3) as I3.
  pose proof (@UserRow.item_or_empty_ok _ _ _ E4) as I4.
  pose proof (@UserRow.item_or_empty_ok _ _ _ E6) as I6.
  unfold cleaned_data.
  rewrite E1; cbn [rbind ok]. rewrite I2; cbn [rbind ok].
  rewrite Ec; cbn [rbind ok]. rewrite E11; cbn [rbind ok].
  rewrite I3; cbn [rbind ok]. rewrite I4; cbn [rbind ok].
  rewrite (@UserRow.hireable_text_ok _ _ E5); cbn [rbind ok].
  rewrite I6; cbn [rbind ok].
  rewrite E7; cbn [rbind ok]. rewrite E8; cbn [rbind ok].
  rewrite E9; cbn [rbind ok]. rewrite E10; cbn [rbind ok].
  eexists; split; [reflexivity|].
  cbn [u_name u_company u_location u_email u_hireable u_bio].
  unfold ok in *.
  repeat split; intros H; try (apply N11); try congruence;
    match type of H with
    | _ = inr JNull =>
        match goal with
        | E : _ = inr ?v |- _ =>
            assert (v = JNull) as -> by congruence; reflexivity
        end
    end.
Qed.

Lemma cleaned_data_never_fails_witness :
  exists row,
    cleaned_data (bare_profile "octocat") = ok row
    /\ u_name row = JStr "" /\ u_company row = ""
    /\ u_location row = JStr "" /\ u_email row = JStr ""
    /\ u_hireable row = "" /\ u_bio row = JStr "".
Proof.
  destruct (@cleaned_data_never_fails (bare_profile "octocat"))
    as [row [E [H1 [H2 [H3 [H4 [H5 H6]]]]]]].
  - intros k H. simpl in H.
    repeat (destruct H as [<- | H]; [eexists; reflexivity|]).
    destruct H.
  - intros c H. injection H as <-. left. reflexivity.
  - exists row. repeat split; auto.
Defined.

(* ------------------------------------------------------------------ *)
(** * Running the scraper *)

Module Run.

Section Steps.

Variable World : Type.
Variable http_get : World -> request -> result response * World.
Variable now : World -> Q.
Variable sleep : Q -> World -> World.

(** One turn of the loop of [_make_request], case by case. *)
Lemma make_request_step (fuel : nat) (self : GitHubScraper) (url : string)
    (params : option (list (string * json))) (st : state World) :
  _make_request http_get now sleep (S fuel) self url params st =
  let r := get_request self url params in
  let st1 := answered st r (fst (http_get (world st) r))
                      (snd (http_get (world st) r)) in
  match fst (http_get (world st) r) with
  | inl e => (Raise e, st1)
  | inr resp =>
      if status_code resp =? 200 then
        match response_json resp with
        | Some v => (Ret v, st1)
        | None => (Raise JSONDecodeError, st1)
        end
      else if status_code resp =? 403 then
        match rate_limit_reset resp with
        | inl e => (Raise e, st1)
        | inr reset =>
            _make_request http_get now sleep fuel self url params
              (waited sleep st1 (sleep_time reset (now (world st1))))
        end
      else if (400 <=? status_code resp) && (status_code resp <? 600) then
        (Raise (HTTPError (status_code resp) (text resp)),
         logged_error st1 resp)
      else _make_request http_get now sleep fuel self url params
             (logged_error st1 resp)
  end.
Proof.
  cbn zeta. unfold answered.
  cbn [_make_request]. unfold bind at 1. unfold requests_get.
  destruct (http_get (world st) (get_request self url params)) as [[e|resp] w];
    cbn [fst snd]; [reflexivity|].
  destruct (status_code resp =? 200).
  - destruct (response_json resp); reflexivity.
  - destruct (status_code resp =? 403).
    + unfold bind, lift. destruct (rate_limit_reset resp); reflexivity.
    + unfold bind, lift, logger, emit, raise_for_status, logged_error.
      cbn [world trace].
      destruct ((400 <=? status_code resp) && (status_code resp <? 600));
        reflexivity.
Qed.

Lemma bind_and_then {A B} (m : M World A) (k : A -> M World B)
    (st : state World) :
  bind m k st = and_then (m st) k.
Proof. reflexivity. Qed.

Lemma lift_and_then {A B} (r : result A) (k : A -> M World B)
    (st : state World) :
  and_then (lift r st) k =
  match r with
  | inl e => (Raise e, st)
  | inr a => k a st
  end.
Proof. destruct r; reflexivity. Qed.

(** The body of the user loop. *)
Lemma enrich_step (fuel : nat) (self : GitHubScraper) (user : json)
    (users : list user_row) (st : state World) :
  enrich http_get now sleep fuel self user users st =
  match rbind (Py.getitem user "url") url_of with
  | inl e => (Raise e, st)
  | inr u =>
      and_then (_make_request http_get now sleep fuel self u None st)
        (fun user_data st1 =>
           match cleaned_data user_data with
           | inl e => (Raise e, st1)
           | inr row => (Ret (users ++ [row])%list, st1)
           end)
  end.
Proof.
  unfold enrich. rewrite bind_and_then, lift_and_then.
  destruct (rbind (Py.getitem user "url") url_of) as [e|u]; [reflexivity|].
  rewrite bind_and_then.
  destruct (_make_request http_get now sleep fuel self u None st)
    as [[user_data|e|] st1]; cbn [and_then]; try reflexivity.
  unfold bind, lift, ret. destruct (cleaned_data user_data); reflexivity.
Qed.

(** One turn of the loop of [search_users]. *)
Lemma search_users_from_step (fuel : nat) (self : GitHubScraper)
    (location : string) (min_followers page : Z) (users : list user_row)
    (st : state World) :
  search_users_from http_get now sleep (S fuel) self location min_followers
    page users st =
  and_then
    (_make_request http_get now sleep (S fuel) self
       (base_url self ++ "/search/users")
       (Some (search_params location min_followers page))
       (logged st (FetchingUsersPage page)))
    (fun response st1 =>
       match Py.get response "items" with
       | inl e => (Raise e, st1)
       | inr items =>
           if negb (Py.truthy items) then (Ret users, st1)
           else
             match rbind (Py.getitem response "items") Py.iter with
             | inl e => (Raise e, st1)
             | inr l =>
                 and_then
                   (for_each (enrich http_get now sleep (S fuel) self) l users st1)
                   (fun users' st2 =>
                      search_users_from http_get now sleep fuel self location
                        min_followers (page + 1) users' st2)
             end
       end).
Proof.
  cbn [search_users_from]. rewrite bind_and_then.
  unfold logger, emit; cbn [and_then]. rewrite bind_and_then.
  fold (logged st (FetchingUsersPage page)).
  destruct (_make_request http_get now sleep (S fuel) self _ _ _)
    as [[response|e|] st1]; cbn [and_then]; try reflexivity.
  rewrite bind_and_then, lift_and_then.
  destruct (Py.get response "items") as [e|items]; [reflexivity|].
  destruct (negb (Py.truthy items)); [reflexivity|].
  rewrite bind_and_then, lift_and_then.
  destruct (rbind (Py.getitem response "items") Py.iter) as [e|l];
    [reflexivity|].
  rewrite bind_and_then. reflexivity.
Qed.

(** One turn of the loop of [get_user_repositories]. *)
Lemma repositories_from_step (fuel : nat) (self : GitHubScraper)
    (username : json) (max_repos page : Z) (repos : list repo_row)
    (st : state World) :
  repositories_from http_get now sleep (S fuel) self username max_repos
    page repos st =
  if Z.of_nat (List.length repos) <? max_repos then
    and_then
      (_make_request http_get now sleep (S fuel) self
         (base_url self ++ "/users/" ++ Py.str username ++ "/repos")
         (Some (repos_params page))
         (logged st (FetchingRepositories username page)))
      (fun response st1 =>
         if negb (Py.truthy response) then (Ret repos, st1)
         else
           match Py.iter response with
           | inl e => (Raise e, st1)
           | inr l =>
               and_then (for_each (add_repo (World := World) username) l repos st1)
                 (fun repos' st2 =>
                    match Py.len response with
                    | inl e => (Raise e, st2)
                    | inr n =>
                        if n <? 100 then (Ret repos', st2)
                        else repositories_from http_get now sleep fuel self
                               username max_repos (page + 1) repos' st2
                    end)
           end)
  else (Ret repos, st).
Proof.
  cbn [repositories_from].
  destruct (Z.of_nat (List.length repos) <? max_repos); [|reflexivity].
  rewrite bind_and_then.
  unfold logger, emit; cbn [and_then]. rewrite bind_and_then.
  fold (logged st (FetchingRepositories username page)).
  destruct (_make_request http_get now sleep (S fuel) self _ _ _)
    as [[response|e|] st1]; cbn [and_then]; try reflexivity.
  destruct (negb (Py.truthy response)); [reflexivity|].
  rewrite bind_and_then, lift_and_then.
  destruct (Py.iter response) as [e|l]; [reflexivity|].
  rewrite bind_and_then.
  destruct (for_each _ l repos st1) as [[repos'|e|] st2]; cbn [and_then];
    try reflexivity.
  rewrite bind_and_then, lift_and_then.
  destruct (Py.len response) as [e|n]; [reflexivity|].
  destruct (n <? 100); reflexivity.
Qed.

End Steps.

Section Requests.

Variable World : Type.
Variable http_get : World -> request -> result response * World.
Variable now : World -> Q.
Variable sleep : Q -> World -> World.

Local Abbreviation state := (state World).
Local Abbreviation _make_request := (_make_request http_get now sleep).

Variable self : GitHubScraper.
Variable url : string.
Variable params : option (list (string * json)).

(** A body is returned only for a 200 response, and it is the body of
    the last response received. *)
Lemma make_request_ret (fuel : nat) (st st' : state) (v : json) :
  _make_request fuel self url params st = (Ret v, st') ->
  exists w resp tr,
    fst (http_get w (get_request self url params)) = inr resp
    /\ trace st' = EvGet (get_request self url params) (inr resp) :: tr
    /\ status_code resp = 200 /\ response_json resp = Some v.
Proof.
  revert st. induction fuel as [|fuel IH]; intros st; [discriminate|].
  rewrite make_request_step; cbn zeta.
  destruct (fst (http_get (world st) (get_request self url params)))
    as [e|resp] eqn:A; [discriminate|].
  destruct (status_code resp =? 200) eqn:S200.
  - destruct (response_json resp) as [b|] eqn:J; [|discriminate].
    intros H; injection H as <- <-.
    exists (world st), resp, (trace st). apply Z.eqb_eq in S200. auto.
  - destruct (status_code resp =? 403).
    + destruct (rate_limit_reset resp); [discriminate | apply IH].
    + destruct ((400 <=? status_code resp) && (status_code resp <? 600));
        [discriminate | apply IH].
Qed.

(** The answer to the first attempt decides what happens next. *)
Lemma make_request_first (fuel : nat) (st : state) (resp : response)
    (w' : World) :
  http_get (world st) (get_request self url params) = (inr resp, w') ->
  let st1 := answered st (get_request self url params) (inr resp) w' in
  (status_code resp = 200 ->
   forall v, response_json resp = Some v ->
             _make_request (S fuel) self url params st = (Ret v, st1))
  /\ (status_code resp = 403 ->
      forall reset, rate_limit_reset resp = ok reset ->
        _make_request (S fuel) self url params st =
        _make_request fuel self url params
          (waited sleep st1 (sleep_time reset (now w'))))
  /\ (400 <= status_code resp < 600 -> status_code resp <> 403 ->
      _make_request (S fuel) self url params st =
      (Raise (HTTPError (status_code resp) (text resp)),
       logged_error st1 resp)).
Proof.
  intros A st1. rewrite make_request_step; cbn zeta. rewrite A; cbn [fst snd].
  fold st1. repeat split.
  - intros S v J. rewrite S, J. reflexivity.
  - intros S reset R. rewrite S, R. reflexivity.
  - intros B S.
    destruct (Z.eqb_spec (status_code resp) 200) as [E|_]; [lia|].
    destruct (Z.eqb_spec (status_code resp) 403) as [E|_]; [contradiction|].
    replace ((400 <=? status_code resp) && (status_code resp <? 600))
      with true; [reflexivity|].
    symmetry. apply andb_true_intro. split; [apply Z.leb_le | apply Z.ltb_lt]; lia.
Qed.

(** There is no cap on the retries: against a world that answers 403 to
    this request for ever, no amount of fuel is enough. *)
Lemma make_request_retries_for_ever :
  (forall w, exists resp reset,
      fst (http_get w (get_request self url params)) = inr resp
      /\ status_code resp = 403 /\ rate_limit_reset resp = ok reset) ->
  forall fuel st, fst (_make_request fuel self url params st) = Diverge.
Proof.
  intros H fuel. induction fuel as [|fuel IH]; intros st; [reflexivity|].
  rewrite make_request_step; cbn zeta.
  destruct (H (world st)) as [resp [reset [A [S R]]]].
  rewrite A, S, R. cbn. apply IH.
Qed.

End Requests.

Section Search.

Variable World : Type.
Variable http_get : World -> request -> result response * World.
Variable now : World -> Q.
Variable sleep : Q -> World -> World.

Local Abbreviation state := (state World).
Local Abbreviation _make_request := (_make_request http_get now sleep).
Local Abbreviation enrich := (enrich http_get now sleep).
Local Abbreviation search_users_from := (search_users_from http_get now sleep).
Local Abbreviation replies := (replies http_get).
Local Abbreviation profile_of := (profile_of http_get).
Local Abbreviation serves_pages := (serves_pages http_get).

Variable self : GitHubScraper.

(** A request the server replies to is answered at the first attempt. *)
Lemma make_request_replies (url : string)
    (params : option (list (string * json))) (v : json) :
  replies (get_request self url params) v ->
  forall fuel st, exists st',
    _make_request (S fuel) self url params st = (Ret v, st')
    /\ exists a, trace st' = EvGet (get_request self url params) a :: trace st.
Proof.
  intros H fuel st. destruct (H (world st)) as [resp [A [S J]]].
  rewrite make_request_step; cbn zeta. rewrite A, S, J. cbn.
  eexists; split; [reflexivity|]. cbn. now eexists.
Qed.

(** A search item with a profile gives one detail request and one row. *)
Lemma enrich_profile (item : json) (row : user_row) :
  profile_of self item row ->
  forall fuel users st, exists st',
    enrich (S fuel) self item users st = (Ret (users ++ [row])%list, st')
    /\ count_gets is_page_request (trace st')
       = count_gets is_page_request (trace st)
    /\ count_gets is_detail_request (trace st')
       = S (count_gets is_detail_request (trace st)).
Proof.
  intros [u [user_data [U [R C]]]] fuel users st.
  rewrite enrich_step, U. cbn [rbind ok url_of].
  destruct (make_request_replies R fuel st) as [st' [E [a T]]].
  rewrite E. cbn [and_then]. rewrite C.
  exists st'. split; [reflexivity|]. rewrite T. split; reflexivity.
Qed.

Lemma for_each_enrich (items : list json) (rows : list user_row) :
  Forall2 (profile_of self) items rows ->
  forall fuel users st, exists st',
    for_each (enrich (S fuel) self) items users st
    = (Ret (users ++ rows)%list, st')
    /\ count_gets is_page_request (trace st')
       = count_gets is_page_request (trace st)
    /\ count_gets is_detail_request (trace st')
       = (count_gets is_detail_request (trace st) + List.length items)%nat.
Proof.
  induction 1 as [|item row items rows P _ IH]; intros fuel users st.
  - exists st. cbn. rewrite app_nil_r, Nat.add_0_r. auto.
  - destruct (enrich_profile P fuel users st) as [st1 [E [C1 C2]]].
    destruct (IH fuel (users ++ [row])%list st1) as [st2 [E2 [D1 D2]]].
    exists st2. cbn [for_each]. rewrite bind_and_then, E. cbn [and_then].
    rewrite E2, <- app_assoc. split; [reflexivity|].
    rewrite D1, D2, C1, C2. cbn [List.length]. split; [reflexivity | lia].
Qed.

(** A dict whose [get] finds a list has that list under the key. *)
Lemma get_list_getitem (body : json) (k : string) (l : list json) :
  Py.get body k = ok (JArr l) -> Py.getitem body k = ok (JArr l).
Proof.
  destruct body; try discriminate. cbn.
  destruct (Py.lookup k fields); [trivial | discriminate].
Qed.

(** The whole search: every page is fetched and enriched in turn, and
    the page that ends the loop is fetched too. *)
Lemma search_serves_pages (location : string) (min_followers : Z)
    (pages : list (list json * list user_row)) :
  forall page, serves_pages self location min_followers page pages ->
  forall fuel users st, (List.length pages < fuel)%nat ->
  exists st',
    search_users_from fuel self location min_followers page users st
    = (Ret (users ++ List.concat (map snd pages))%list, st')
    /\ count_gets is_page_request (trace st')
       = (count_gets is_page_request (trace st) + S (List.length pages))%nat
    /\ count_gets is_detail_request (trace st')
       = (count_gets is_detail_request (trace st)
          + List.length (List.concat (map fst pages)))%nat.
Proof.
  induction pages as [|[items rows] rest IH]; intros page S fuel users st F;
    (destruct fuel as [|fuel]; [cbn in F; lia|]);
    rewrite search_users_from_step.
  - destruct S as [body [items [R [G T]]]].
    destruct (make_request_replies R fuel
                (logged st (FetchingUsersPage page))) as [st' [E [a Tr]]].
    exists st'. unfold search_request in *. rewrite E. cbn [and_then].
    rewrite G. cbv beta iota delta [ok]. rewrite T. cbn [negb].
    cbn [map List.concat List.length]. rewrite app_nil_r, Tr.
    split; [reflexivity|]. cbn [count_gets logged recorded trace]. split.
    + replace (is_page_request _) with true by reflexivity. lia.
    + replace (is_detail_request _) with false by reflexivity. lia.
  - destruct S as [NE [[body [R G]] [P S]]].
    destruct (make_request_replies R fuel
                (logged st (FetchingUsersPage page))) as [st1 [E [a Tr]]].
    unfold search_request in *. rewrite E. cbn [and_then]. rewrite G.
    cbv beta iota delta [ok].
    replace (negb (Py.truthy (JArr items))) with false
      by (destruct items; [contradiction | reflexivity]).
    rewrite (@get_list_getitem _ _ _ G). cbn [rbind ok Py.iter].
    destruct (for_each_enrich P fuel users st1) as [st2 [E2 [C1 C2]]].
    rewrite E2. cbn [and_then].
    destruct (IH (page + 1) S fuel (users ++ rows)%list st2) as [st3 [E3 [D1 D2]]];
      [cbn in F; lia|].
    exists st3. rewrite E3. cbn [map List.concat snd fst].
    rewrite <- app_assoc. split; [reflexivity|].
    rewrite D1, D2, C1, C2, Tr. cbn [count_gets logged recorded trace List.length].
    rewrite length_app.
    replace (is_page_request (get_request self (base_url self ++ "/search/users")
               (Some (search_params location min_followers page)))) with true
      by reflexivity.
    replace (is_detail_request (get_request self (base_url self ++ "/search/users")
               (Some (search_params location min_followers page)))) with false
      by reflexivity.
    split; lia.
Qed.

End Search.

Section Fuel.

Variable World : Type.
Variable http_get : World -> request -> result response * World.
Variable now : World -> Q.
Variable sleep : Q -> World -> World.

Local Abbreviation state := (state World).
Local Abbreviation _make_request := (_make_request http_get now sleep).
Local Abbreviation enrich := (enrich http_get now sleep).
Local Abbreviation search_users_from := (search_users_from http_get now sleep).

Lemma and_then_settles {A B} (r : outcome A * state)
    (k : A -> state -> outcome B * state) :
  settles (and_then r k) -> settles r.
Proof.
  unfold settles. destruct r as [[a|e|] st]; cbn; intros H.
  - discriminate.
  - discriminate.
  - exfalso. now apply H.
Qed.

Variable self : GitHubScraper.

(** More fuel does not change a run that settles. *)
Lemma make_request_mono (url : string)
    (params : option (list (string * json))) (fuel fuel' : nat) (st : state) :
  (fuel <= fuel')%nat ->
  settles (_make_request fuel self url params st) ->
  _make_request fuel' self url params st = _make_request fuel self url params st.
Proof.
  revert fuel' st. induction fuel as [|fuel IH]; intros fuel' st L S.
  - exfalso. apply S. reflexivity.
  - destruct fuel' as [|fuel']; [lia|].
    rewrite make_request_step in S. rewrite !make_request_step.
    cbn zeta in *.
    destruct (fst (http_get (world st) (get_request self url params)))
      as [e|resp]; [reflexivity|].
    destruct (status_code resp =? 200); [reflexivity|].
    destruct (status_code resp =? 403).
    + destruct (rate_limit_reset resp); [reflexivity|]. apply IH; [lia | exact S].
    + destruct ((400 <=? status_code resp) && (status_code resp <? 600));
        [reflexivity|]. apply IH; [lia | exact S].
Qed.

Lemma enrich_mono (fuel fuel' : nat) (user : json) (users : list user_row)
    (st : state) :
  (fuel <= fuel')%nat ->
  settles (enrich fuel self user users st) ->
  enrich fuel' self user users st = enrich fuel self user users st.
Proof.
  intros L S. rewrite enrich_step in S. rewrite !enrich_step.
  destruct (rbind (Py.getitem user "url") url_of) as [e|u]; [reflexivity|].
  apply and_then_settles in S.
  rewrite make_request_mono with (fuel := fuel); [reflexivity | exact L | exact S].
Qed.

Lemma for_each_mono {A B} (body : nat -> A -> B -> M World B) :
  (forall f f' x acc st, (f <= f')%nat -> settles (body f x acc st) ->
                         body f' x acc st = body f x acc st) ->
  forall l f f' acc st, (f <= f')%nat ->
    settles (for_each (body f) l acc st) ->
    for_each (body f') l acc st = for_each (body f) l acc st.
Proof.
  intros Hb l. induction l as [|x l IH]; intros f f' acc st L S; [reflexivity|].
  cbn [for_each] in *. rewrite bind_and_then in S. rewrite !bind_and_then.
  rewrite (Hb f f' x acc st L (@and_then_settles _ _ _ _ S)).
  destruct (body f x acc st) as [[acc'|e|] st1]; cbn [and_then] in *;
    try reflexivity.
  now apply IH.
Qed.

Lemma search_users_from_mono (location : string) (min_followers : Z)
    (fuel fuel' : nat) (page : Z) (users : list user_row) (st : state) :
  (fuel <= fuel')%nat ->
  settles (search_users_from fuel self location min_followers page users st) ->
  search_users_from fuel' self location min_followers page users st
  = search_users_from fuel self location min_followers page users st.
Proof.
  revert fuel' page users st.
  induction fuel as [|fuel IH]; intros fuel' page users st L HS.
  - exfalso. apply HS. reflexivity.
  - destruct fuel' as [|fuel']; [lia|].
    rewrite search_users_from_step in HS. rewrite !search_users_from_step.
    rewrite make_request_mono with (fuel := S fuel);
      [|exact L | exact (@and_then_settles _ _ _ _ HS)].
    destruct (_make_request (S fuel) self _ _ _)
      as [[response|e|] st1]; cbn [and_then] in *; try reflexivity.
    destruct (Py.get response "items") as [e|items]; [reflexivity|].
    destruct (negb (Py.truthy items)); [reflexivity|].
    destruct (rbind (Py.getitem response "items") Py.iter) as [e|l];
      [reflexivity|].
    rewrite (@for_each_mono _ _ (fun f => enrich f self)
               (fun f f' x acc st => @enrich_mono f f' x acc st)
               l (S fuel) (S fuel') users st1 L (@and_then_settles _ _ _ _ HS)).
    destruct (for_each _ l users st1) as [[users'|e|] st2];
      cbn [and_then] in *; try reflexivity.
    apply IH; [lia | exact HS].
Qed.

(** A row is appended for every item that is enriched. *)
Lemma enrich_ret (fuel : nat) (user : json) (users users' : list user_row)
    (st st' : state) :
  enrich fuel self user users st = (Ret users', st') ->
  exists row, users' = (users ++ [row])%list.
Proof.
  rewrite enrich_step.
  destruct (rbind (Py.getitem user "url") url_of) as [e|u]; [discriminate|].
  destruct (_make_request fuel self u None st) as [[user_data|e|] st1];
    cbn [and_then]; try discriminate.
  destruct (cleaned_data user_data) as [e|row]; [discriminate|].
  intros H; injection H as <- _. now exists row.
Qed.

Lemma for_each_enrich_ret (fuel : nat) (l : list json) :
  forall (users users' : list user_row) (st st' : state),
  for_each (enrich fuel self) l users st = (Ret users', st') ->
  List.length users' = (List.length users + List.length l)%nat.
Proof.
  induction l as [|x l IH]; intros users users' st st'; cbn [for_each].
  - intros H; injection H as <- _. cbn. lia.
  - rewrite bind_and_then.
    destruct (enrich fuel self x users st) as [[users1|e|] st1] eqn:E;
      cbn [and_then]; try discriminate.
    intros H. apply IH in H. apply enrich_ret in E as [row ->].
    rewrite length_app in H. cbn in *. lia.
Qed.

(** A value that [get] finds and that is true is under the key. *)
Lemma get_truthy_getitem (body : json) (k : string) (v : json) :
  Py.get body k = ok v -> Py.truthy v = true -> Py.getitem body k = ok v.
Proof.
  destruct body; try discriminate. cbn.
  destruct (Py.lookup k fields); [trivial|].
  intros H; injection H as <-. discriminate.
Qed.

(** The loop goes on after a page with items: they are all enriched,
    and the next page is requested. *)
Lemma search_users_from_next (location : string) (min_followers : Z)
    (fuel : nat) (page : Z) (users users' : list user_row)
    (st st1 st2 : state) (body items : json) (l : list json) :
  _make_request (S fuel) self (base_url self ++ "/search/users")
    (Some (search_params location min_followers page))
    (logged st (FetchingUsersPage page)) = (Ret body, st1) ->
  Py.get body "items" = ok items -> Py.truthy items = true ->
  Py.iter items = ok l ->
  for_each (enrich (S fuel) self) l users st1 = (Ret users', st2) ->
  search_users_from (S fuel) self location min_followers page users st
  = search_users_from fuel self location min_followers (page + 1) users' st2
  /\ List.length users' = (List.length users + List.length l)%nat.
Proof.
  intros E G T I F. split; [|exact (for_each_enrich_ret _ _ _ _ F)].
  rewrite search_users_from_step, E. cbn [and_then]. rewrite G.
  cbv beta iota delta [ok]. rewrite T. cbn [negb].
  rewrite (get_truthy_getitem _ _ G T). cbn [rbind ok]. rewrite I.
  cbv beta iota delta [ok]. rewrite F. reflexivity.
Qed.

(** The loop returns only after a page whose items are empty or absent:
    the last thing it did is to receive such a page. *)
Lemma search_users_from_ret (location : string) (min_followers : Z)
    (fuel : nat) :
  forall (page : Z) (users users' : list user_row) (st st' : state),
  search_users_from fuel self location min_followers page users st
  = (Ret users', st') ->
  exists page' w resp body items tr,
    fst (http_get w (search_request self location min_followers page')) = inr resp
    /\ trace st' = EvGet (search_request self location min_followers page')
                     (inr resp) :: tr
    /\ status_code resp = 200 /\ response_json resp = Some body
    /\ Py.get body "items" = ok items /\ Py.truthy items = false.
Proof.
  induction fuel as [|fuel IH]; intros page users users' st st';
    [discriminate|].
  rewrite search_users_from_step.
  destruct (_make_request (S fuel) self _ _ _) as [[body|e|] st1] eqn:E;
    cbn [and_then]; try discriminate.
  destruct (Py.get body "items") as [e|items] eqn:G; [discriminate|].
  destruct (Py.truthy items) eqn:T; cbn [negb].
  - destruct (rbind (Py.getitem body "items") Py.iter) as [e|l];
      [discriminate|].
    destruct (for_each _ l users st1) as [[users1|e|] st2];
      cbn [and_then]; try discriminate.
    apply IH.
  - intros H; injection H as <- <-.
    apply make_request_ret in E as [w [resp [tr [A [Tr [S200 J]]]]]].
    exists page, w, resp, body, items, tr. unfold search_request.
    repeat split; assumption.
Qed.

Section Termination.

(** Every call of [_make_request] ends: no rate-limit wait is repeated
    for ever. *)
Hypothesis requests_end :
  forall url params st, exists fuel,
    settles (_make_request fuel self url params st).

Lemma enrich_ends (user : json) (users : list user_row) (st : state) :
  exists fuel, settles (enrich fuel self user users st).
Proof.
  destruct (rbind (Py.getitem user "url") url_of) as [e|u] eqn:U.
  - exists 0%nat. rewrite enrich_step, U. discriminate.
  - destruct (requests_end u None st) as [fuel H]. exists fuel.
    rewrite enrich_step, U. unfold settles in *.
    destruct (_make_request fuel self u None st) as [[user_data|e|] st1];
      cbn [and_then fst] in *; [|discriminate | exfalso; now apply H].
    destruct (cleaned_data user_data); discriminate.
Qed.

Lemma for_each_enrich_ends (l : list json) :
  forall (users : list user_row) (st : state),
  exists fuel, settles (for_each (enrich fuel self) l users st).
Proof.
  induction l as [|x l IH]; intros users st.
  - exists 0%nat. discriminate.
  - destruct (enrich_ends x users st) as [f1 H1].
    destruct (enrich f1 self x users st) as [[users1|e|] st1] eqn:E.
    + destruct (IH users1 st1) as [f2 H2].
      exists (Nat.max f1 f2). cbn [for_each]. rewrite bind_and_then.
      rewrite enrich_mono with (fuel := f1); [|lia | rewrite E; exact H1].
      rewrite E. cbn [and_then].
      rewrite (@for_each_mono _ _ (fun f => enrich f self)
                 (fun f f' x acc st => @enrich_mono f f' x acc st)
                 l f2 (Nat.max f1 f2) users1 st1 (Nat.le_max_r _ _) H2).
      exact H2.
    + exists f1. cbn [for_each]. rewrite bind_and_then, E. discriminate.
    + exfalso. now apply H1.
Qed.

Variable location : string.
Variable min_followers : Z.

(** The search has an empty page at the index [last]. *)
Variable last : Z.
Hypothesis last_empty : empty_page http_get self location min_followers last.

Lemma search_users_from_ends (k : nat) :
  forall (page : Z) (users : list user_row) (st : state),
  page + Z.of_nat k = last ->
  exists fuel,
    settles (search_users_from fuel self location min_followers page users st).
Proof.
  induction k as [|k IH]; intros page users st P.
  - destruct (requests_end (base_url self ++ "/search/users")
                (Some (search_params location min_followers page))
                (logged st (FetchingUsersPage page))) as [f1 H1].
    exists f1. destruct f1 as [|f1]; [exfalso; now apply H1|].
    rewrite search_users_from_step.
    destruct (_make_request (S f1) self _ _ _) as [[body|e|] st1] eqn:E;
      cbn [and_then]; [|discriminate | exfalso; now apply H1].
    apply make_request_ret in E as [w [resp [tr [A [_ [S200 J]]]]]].
    replace page with last in A by lia.
    destruct (last_empty w A S200 J) as [items [G T]].
    rewrite G. cbv beta iota delta [ok]. rewrite T. discriminate.
  - destruct (requests_end (base_url self ++ "/search/users")
                (Some (search_params location min_followers page))
                (logged st (FetchingUsersPage page))) as [f1 H1].
    destruct (_make_request f1 self _ _ _) as [[body|e|] st1] eqn:E.
    + destruct (Py.get body "items") as [e|items] eqn:G.
      { exists f1. destruct f1 as [|f1]; [discriminate E|].
        rewrite search_users_from_step, E. cbn [and_then]. rewrite G.
        discriminate. }
      destruct (Py.truthy items) eqn:T.
      2:{ exists f1. destruct f1 as [|f1]; [discriminate E|].
          rewrite search_users_from_step, E. cbn [and_then]. rewrite G, T.
          discriminate. }
      destruct (rbind (Py.getitem body "items") Py.iter) as [e|l] eqn:I.
      { exists f1. destruct f1 as [|f1]; [discriminate E|].
        rewrite search_users_from_step, E. cbn [and_then]. rewrite G, T, I.
        discriminate. }
      destruct (for_each_enrich_ends l users st1) as [f2 H2].
      destruct (for_each (enrich f2 self) l users st1)
        as [[users1|e|] st2] eqn:F.
      * destruct (IH (page + 1) users1 st2) as [f3 H3]; [lia|].
        exists (S (Nat.max f1 (Nat.max f2 f3))).
        rewrite search_users_from_step.
        rewrite make_request_mono with (fuel := f1); [|lia | rewrite E; exact H1].
        rewrite E. cbn [and_then]. rewrite G, T, I. cbn [negb].
        rewrite (@for_each_mono _ _ (fun f => enrich f self)
                   (fun f f' x acc st => @enrich_mono f f' x acc st)
                   l f2 (S (Nat.max f1 (Nat.max f2 f3))) users st1);
          [|lia | rewrite F; exact H2].
        rewrite F. cbn [and_then].
        rewrite search_users_from_mono with (fuel := f3); [exact H3 | lia | exact H3].
      * exists (S (Nat.max f1 f2)).
        rewrite search_users_from_step.
        rewrite make_request_mono with (fuel := f1); [|lia | rewrite E; exact H1].
        rewrite E. cbn [and_then]. rewrite G, T, I. cbn [negb].
        rewrite (@for_each_mono _ _ (fun f => enrich f self)
                   (fun f f' x acc st => @enrich_mono f f' x acc st)
                   l f2 (S (Nat.max f1 f2)) users st1);
          [|lia | rewrite F; exact H2].
        rewrite F. discriminate.
      * exfalso. now apply H2.
    + exists (S f1). rewrite search_users_from_step.
      rewrite make_request_mono with (fuel := f1); [|lia | rewrite E; exact H1].
      rewrite E. discriminate.
    + exfalso. now apply H1.
Qed.

End Termination.

End Fuel.

Section Repositories.

Variable World : Type.
Variable http_get : World -> request -> result response * World.
Variable now : World -> Q.
Variable sleep : Q -> World -> World.

Local Abbreviation state := (state World).
Local Abbreviation _make_request := (_make_request http_get now sleep).
Local Abbreviation repositories_from := (repositories_from http_get now sleep).

Variable self : GitHubScraper.
Variable username : json.

Lemma repo_data_login (repo : json) (row : repo_row) :
  repo_data username repo = ok row -> owned username row.
Proof.
  unfold repo_data, owned.
  repeat match goal with
         | |- context [rbind ?x _] =>
             destruct x; cbn [rbind]; [discriminate|]
         end.
  intros H; injection H as <-. reflexivity.
Qed.

Lemma add_repo_ret (repo : json) (repos repos' : list repo_row)
    (st st' : state) :
  add_repo (World := World) username repo repos st = (Ret repos', st') ->
  st' = st /\ exists row, repo_data username repo = ok row
                          /\ repos' = (repos ++ [row])%list.
Proof.
  unfold add_repo, bind, lift, ret.
  destruct (repo_data username repo) as [e|row]; [discriminate|].
  intros H; injection H as <- <-. split; [reflexivity|]. now exists row.
Qed.

Lemma for_each_add_repo_owned (l : list json) :
  forall (repos repos' : list repo_row) (st st' : state),
  Forall (owned username) repos ->
  for_each (add_repo (World := World) username) l repos st = (Ret repos', st') ->
  Forall (owned username) repos'.
Proof.
  induction l as [|repo l IH]; intros repos repos' st st' O; cbn [for_each].
  - intros H; injection H as <- _. exact O.
  - rewrite bind_and_then.
    destruct (add_repo (World := World) username repo repos st) as [[repos1|e|] st1] eqn:E;
      cbn [and_then]; try discriminate.
    apply add_repo_ret in E as [_ [row [D ->]]].
    apply IH. apply Forall_app. split; [exact O|].
    constructor; [exact (repo_data_login _ D) | constructor].
Qed.

Lemma repositories_from_owned (max_repos : Z) (fuel : nat) :
  forall (page : Z) (repos repos' : list repo_row) (st st' : state),
  Forall (owned username) repos ->
  repositories_from fuel self username max_repos page repos st
  = (Ret repos', st') ->
  Forall (owned username) repos'.
Proof.
  induction fuel as [|fuel IH]; intros page repos repos' st st' O.
  - cbn. destruct (Z.of_nat (List.length repos) <? max_repos);
      [discriminate|].
    intros H; injection H as <- _. exact O.
  - rewrite repositories_from_step.
    destruct (Z.of_nat (List.length repos) <? max_repos).
    2:{ intros H; injection H as <- _. exact O. }
    destruct (_make_request (S fuel) self _ _ _) as [[response|e|] st1];
      cbn [and_then]; try discriminate.
    destruct (negb (Py.truthy response)).
    { intros H; injection H as <- _. exact O. }
    destruct (Py.iter response) as [e|l]; [discriminate|].
    destruct (for_each (add_repo (World := World) username) l repos st1)
      as [[repos1|e|] st2] eqn:F; cbn [and_then]; try discriminate.
    apply for_each_add_repo_owned in F; [|exact O].
    destruct (Py.len response) as [e|n]; [discriminate|].
    destruct (n <? 100).
    + intros H; injection H as <- _. exact F.
    + apply IH. exact F.
Qed.

Lemma firstn_all_of {A} (P : A -> Prop) (n : nat) (l : list A) :
  Forall P l -> Forall P (firstn n l).
Proof.
  intros H. revert n. induction H as [|x l Px _ IH]; intros [|n]; cbn;
    constructor; auto.
Qed.

Lemma slice_to_all_of {A} (P : A -> Prop) (n : Z) (l : list A) :
  Forall P l -> Forall P (Py.slice_to n l).
Proof.
  intros H. unfold Py.slice_to. destruct (0 <=? n); now apply firstn_all_of.
Qed.

Lemma slice_to_length {A} (n : Z) (l : list A) :
  0 <= n -> Z.of_nat (List.length (Py.slice_to n l)) <= n.
Proof.
  intros H. unfold Py.slice_to.
  destruct (Z.leb_spec 0 n); [|lia]. rewrite length_firstn. lia.
Qed.

(** What [get_user_repositories] returns is what its loop gathered, cut
    at [max_repos]. *)
Lemma get_user_repositories_ret (fuel : nat) (max_repos : Z)
    (rows : list repo_row) (st st' : state) :
  get_user_repositories http_get now sleep fuel self username max_repos st
  = (Ret rows, st') ->
  exists repos,
    repositories_from fuel self username max_repos 1 [] st = (Ret repos, st')
    /\ rows = Py.slice_to max_repos repos.
Proof.
  unfold get_user_repositories. rewrite bind_and_then.
  destruct (repositories_from fuel self username max_repos 1 [] st)
    as [[repos|e|] st1]; cbn [and_then]; try discriminate.
  intros H; injection H as <- <-. now exists repos.
Qed.

Section Listing.

Lemma add_repo_row (repo : json) (row : repo_row)
    (repos : list repo_row) (st : state) :
  normalizes username repo row ->
  add_repo username repo repos st = (Ret (repos ++ [row])%list, st).
Proof. intros N. unfold add_repo, bind, lift, ret. now rewrite N. Qed.

Lemma for_each_add_repo_rows (l : list json) (rs : list repo_row) :
  Forall2 (normalizes username) l rs ->
  forall (repos : list repo_row) (st : state),
  for_each (add_repo (World := World) username) l repos st
  = (Ret (repos ++ rs)%list, st).
Proof.
  induction 1 as [|repo row l rs N _ IH]; intros repos st; cbn [for_each].
  - now rewrite app_nil_r.
  - rewrite bind_and_then, (add_repo_row repos st N). cbn [and_then].
    rewrite IH, <- app_assoc. reflexivity.
Qed.

Lemma firstn_related {A B} (R : A -> B -> Prop) (n : nat)
    (l : list A) (l' : list B) :
  Forall2 R l l' -> Forall2 R (firstn n l) (firstn n l').
Proof.
  intros H. revert n. induction H; intros [|n]; cbn; constructor; auto.
Qed.

Lemma skipn_related {A B} (R : A -> B -> Prop) (n : nat)
    (l : list A) (l' : list B) :
  Forall2 R l l' -> Forall2 R (skipn n l) (skipn n l').
Proof.
  intros H. revert n. induction H; intros [|n]; cbn; auto.
Qed.

Lemma firstn_more {A} (a b : nat) (l : list A) :
  (firstn a l ++ firstn b (skipn a l))%list = firstn (a + b) l.
Proof.
  revert l. induction a as [|a IH]; intros l; [reflexivity|].
  destruct l as [|x l]; cbn.
  - now rewrite firstn_nil.
  - now rewrite IH.
Qed.

Variable all : list json.
Variable rows : list repo_row.
Hypothesis listed : lists_repos http_get self username all.
Hypothesis normal : Forall2 (normalizes username) all rows.

(** The loop against an honest listing, entered at page [k + 1] with the
    first [100 * k] rows: it returns a prefix of the rows that reaches
    [max_repos] or holds every row. *)
Lemma repositories_from_listing (max_repos : Z) (fuel : nat) :
  forall (k : nat) (st : state),
  (100 * k <= List.length all)%nat ->
  (List.length all < 100 * (k + fuel))%nat ->
  exists m st',
    repositories_from fuel self username max_repos (Z.of_nat k + 1)
      (firstn (100 * k) rows) st
    = (Ret (firstn m rows), st')
    /\ (max_repos <= Z.of_nat m \/ (List.length rows <= m)%nat).
Proof.
  pose proof (Forall2_length normal) as LEN.
  induction fuel as [|fuel IH]; intros k st K F; [lia|].
  rewrite repositories_from_step. rewrite length_firstn.
  destruct (Z.ltb_spec (Z.of_nat (Nat.min (100 * k) (List.length rows)))
              max_repos) as [C|C].
  2:{ exists (100 * k)%nat, st. split; [reflexivity | lia]. }
  assert (P : 1 <= Z.of_nat k + 1) by lia.
  destruct (@make_request_replies World http_get now sleep self
              (base_url self ++ "/users/" ++ Py.str username ++ "/repos")
              (Some (repos_params (Z.of_nat k + 1))) _ (listed P) fuel
              (logged st (FetchingRepositories username (Z.of_nat k + 1))))
    as [st1 [E _]].
  rewrite E.
  cbn [and_then]. unfold page_slice.
  replace (Z.to_nat (Z.of_nat k + 1 - 1)) with k by lia.
  destruct (firstn 100 (skipn (100 * k) all)) as [|repo l] eqn:SL.
  - cbn [Py.truthy negb]. exists (100 * k)%nat, st1.
    split; [reflexivity|]. right.
    apply (f_equal (@List.length json)) in SL.
    rewrite length_firstn, length_skipn in SL. cbn [List.length] in SL. lia.
  - cbn [Py.truthy negb Py.iter ok]. rewrite <- SL.
    rewrite (for_each_add_repo_rows
               (firstn_related 100 (skipn_related (100 * k) normal))).
    cbn [and_then Py.len ok]. rewrite firstn_more.
    rewrite length_firstn, length_skipn.
    destruct (Z.ltb_spec (Z.of_nat (Nat.min 100 (List.length all - 100 * k)))
                100) as [D|D].
    + exists (100 * k + 100)%nat, st1. split; [reflexivity | lia].
    + replace (100 * k + 100)%nat with (100 * S k)%nat by lia.
      replace (Z.of_nat k + 1 + 1) with (Z.of_nat (S k) + 1) by lia.
      apply IH; lia.
Qed.

Lemma get_user_repositories_listing (max_repos : Z) (fuel : nat)
    (st : state) :
  (List.length all < fuel)%nat ->
  exists st',
    get_user_repositories http_get now sleep fuel self username max_repos st
    = (Ret (firstn (Z.to_nat max_repos) rows), st').
Proof.
  intros F. unfold get_user_repositories. rewrite bind_and_then.
  destruct (Z.leb_spec max_repos 0) as [N|N].
  - exists st. destruct fuel as [|fuel]; [lia|].
    rewrite repositories_from_step. cbn [List.length].
    destruct (Z.ltb_spec (Z.of_nat 0) max_repos); [lia|]. cbn [and_then].
    unfold ret, Py.slice_to.
    replace (Z.to_nat max_repos) with 0%nat by lia.
    destruct (0 <=? max_repos); reflexivity.
  - destruct (@repositories_from_listing max_repos fuel 0%nat st)
      as [m [st' [E B]]]; [lia | lia |].
    change (firstn (100 * 0) rows) with (@nil repo_row) in E.
    change (Z.of_nat 0 + 1) with 1 in E. rewrite E. cbn [and_then].
    exists st'. unfold ret, Py.slice_to.
    destruct (Z.leb_spec 0 max_repos); [|lia]. f_equal. f_equal.
    rewrite firstn_firstn. destruct B as [B|B].
    + f_equal. lia.
    + destruct (Nat.le_ge_cases (Z.to_nat max_repos) m) as [L|L].
      * f_equal. lia.
      * rewrite Nat.min_r by exact L.
        rewrite !firstn_all2 by lia. reflexivity.
Qed.

End Listing.

End Repositories.

End Run.




(* ------------------------------------------------------------------ *)
(** * The user search *)

(** The server [serve237] does serve pages of 100, 100 and 37 items. *)
Module Example237.

Lemma profile (self : GitHubScraper) (i : nat) :
  profile_of (stateless serve237) self (search_item i) (bare_row (user_url i)).
Proof.
  exists (user_url i), (bare_profile (user_url i)).
  split; [reflexivity|]. split; [|reflexivity].
  intros w. eexists. split; [reflexivity|]. split; reflexivity.
Qed.

Lemma profiles (self : GitHubScraper) (page : Z) :
  Forall2 (profile_of (stateless serve237) self) (items237 page) (rows237 page).
Proof.
  unfold items237, rows237.
  induction (page_numbers page) as [|i l IH]; cbn [map]; constructor.
  - apply profile.
  - exact IH.
Qed.

Lemma page_reply (self : GitHubScraper) (location : string)
    (min_followers page : Z) :
  exists body,
    replies (stateless serve237)
      (search_request self location min_followers page) body
    /\ Py.get body "items" = ok (JArr (items237 page)).
Proof.
  eexists. split.
  - intros w. eexists. split; [reflexivity|]. split; reflexivity.
  - reflexivity.
Qed.

Lemma serves (self : GitHubScraper) (location : string) (min_followers : Z) :
  serves_pages (stateless serve237) self location min_followers 1
    [(items237 1, rows237 1); (items237 2, rows237 2); (items237 3, rows237 3)].
Proof.
  cbn [serves_pages].
  repeat (split; [discriminate|]; split; [apply page_reply|];
          split; [apply profiles|]).
  destruct (page_reply self location min_followers (1 + 1 + 1 + 1))
    as [body [R G]].
  exists body, (JArr []). auto.
Qed.

End Example237.

(** C1, as stated, fails: against a search that serves pages of 100, 100
    and 37 items and empty pages after them, the run returns 237 rows
    and sends 237 detail requests, and it sends four search-page
    requests, not three: the loop ends on the empty fourth page only. *)
Lemma search_users_237_sends_four_page_requests :
  let run := search_users (stateless serve237) still_clock no_sleep 4
               (__init__ "t") "Bangalore" 100 (start tt) in
  (exists rows, fst run = Ret rows /\ List.length rows = 237%nat)
  /\ count_gets is_detail_request (trace (snd run)) = 237%nat
  /\ count_gets is_page_request (trace (snd run)) = 4%nat
  /\ count_gets is_page_request (trace (snd run)) <> 3%nat.
Proof.
  cbv zeta. split; [|split; [|split]].
  - eexists. split; vm_compute; reflexivity.
  - vm_compute; reflexivity.
  - vm_compute; reflexivity.
  - vm_compute. discriminate.
Qed.

(** C1, amended: if the user search returns pages containing 100, 100
    and 37 items (and an empty page after them), then [search_users]
    returns exactly 237 normalized user records, and the run issues
    exactly 4 search-page requests (the three pages and the empty page
    that ends the loop) plus 237 per-user detail requests. *)
Theorem search_users_100_100_37 (World : Type)
    (http_get : World -> request -> result response * World)
    (now : World -> Q) (sleep : Q -> World -> World)
    (self : GitHubScraper) (location : string) (min_followers : Z)
    (p1 p2 p3 : list json) (r1 r2 r3 : list user_row)
    (fuel : nat) (st : state World) :
  List.length p1 = 100%nat -> List.length p2 = 100%nat ->
  List.length p3 = 37%nat ->
  serves_pages http_get self location min_followers 1
    [(p1, r1); (p2, r2); (p3, r3)] ->
  (4 <= fuel)%nat ->
  exists st',
    search_users http_get now sleep fuel self location min_followers st
    = (Ret (r1 ++ r2 ++ r3)%list, st')
    /\ List.length (r1 ++ r2 ++ r3)%list = 237%nat
    /\ count_gets is_page_request (trace st')
       = (count_gets is_page_request (trace st) + 4)%nat
    /\ count_gets is_detail_request (trace st')
       = (count_gets is_detail_request (trace st) + 237)%nat.
Proof.
  intros L1 L2 L3 S F.
  destruct (@Run.search_serves_pages World http_get now sleep self location
              min_followers _ 1 S fuel [] st) as [st' [E [C D]]];
    [cbn; lia|].
  cbn [map List.concat snd fst app] in E, D. rewrite app_nil_r in E, D.
  exists st'. split; [exact E|].
  cbn [serves_pages] in S.
  destruct S as [_ [_ [F1 [_ [_ [F2 [_ [_ [F3 _]]]]]]]]].
  apply Forall2_length in F1, F2, F3.
  rewrite !length_app in *. repeat split; [lia | exact C | lia].
Qed.

Lemma search_users_100_100_37_witness :
  exists st',
    search_users (stateless serve237) still_clock no_sleep 4
      (__init__ "t") "Bangalore" 100 (start tt)
    = (Ret (rows237 1 ++ rows237 2
            ++ rows237 3)%list, st')
    /\ List.length (rows237 1 ++ rows237 2
                    ++ rows237 3)%list = 237%nat
    /\ count_gets is_page_request (trace st') = 4%nat
    /\ count_gets is_detail_request (trace st') = 237%nat.
Proof.
  apply (@search_users_100_100_37 unit (stateless serve237) still_clock
           no_sleep (__init__ "t") "Bangalore" 100
           (items237 1) (items237 2)
           (items237 3)
           (rows237 1) (rows237 2)
           (rows237 3) 4 (start tt)).
  - reflexivity.
  - reflexivity.
  - reflexivity.
  - apply Example237.serves.
  - lia.
Defined.

(* ------------------------------------------------------------------ *)
(** * The repositories of a user *)

(** The server [serve_run] lists the 25 repositories to whoever asks. *)
Module Example25.

Lemma listed (self : GitHubScraper) (username : json) :
  lists_repos (stateless serve_run) self username repos25.
Proof.
  intros page _ w. eexists. split; [reflexivity|]. split; reflexivity.
Qed.

Lemma normal (username : json) :
  Forall2 (fun repo row => repo_data username repo = ok row)
    repos25 (rows25 username).
Proof.
  unfold repos25, rows25. induction (seq 0 25) as [|i l IH]; cbn [map];
    constructor; [reflexivity | exact IH].
Qed.

End Example25.



(** C10: every record [get_user_repositories] returns has, as its
    [login], the [username] the call was given, whatever owner the raw
    repository records name. *)
Theorem get_user_repositories_login (World : Type)
    (http_get : World -> request -> result response * World)
    (now : World -> Q) (sleep : Q -> World -> World)
    (fuel : nat) (self : GitHubScraper) (username : json) (max_repos : Z)
    (st st' : state World) (rows : list repo_row) :
  get_user_repositories http_get now sleep fuel self username max_repos st
  = (Ret rows, st') ->
  Forall (fun row => r_login row = username) rows.
Proof.
  intros E. apply Run.get_user_repositories_ret in E as [repos [E ->]].
  apply Run.slice_to_all_of.
  apply (@Run.repositories_from_owned World http_get now sleep self username
           max_repos fuel 1 [] repos st st'); [constructor | exact E].
Qed.

Lemma get_user_repositories_login_witness :
  Forall (fun row => r_login row = JStr "octocat")
    (firstn 10 (rows25 (JStr "octocat")))
  /\ Py.getitem (sample_repo 0) "owner"
     = ok (JObj [("login", JStr "someone-else")]).
Proof.
  split; [|reflexivity].
  apply (@get_user_repositories_login unit (stateless serve_run) still_clock
           no_sleep 3 (__init__ "t") (JStr "octocat") 10 (start tt)
           (snd (get_user_repositories (stateless serve_run) still_clock
                   no_sleep 3 (__init__ "t") (JStr "octocat") 10 (start tt)))).
  vm_compute. reflexivity.
Defined.

(* ------------------------------------------------------------------ *)
(** * The run *)

Module Main.

Section Facts.

Variable World : Type.
Variable http_get : World -> request -> result response * World.
Variable now : World -> Q.
Variable sleep : Q -> World -> World.

Variable fuel : nat.
Variable scraper : GitHubScraper.

(** The loop over the users adds, to what it has, the repositories of
    each user in turn. *)
Lemma extend_in_turn (users : list user_row) :
  forall (acc all_repos : list repo_row) (st st' : state World),
  for_each (extend_with_repos http_get now sleep fuel scraper) users acc st
  = (Ret all_repos, st') ->
  exists seqs,
    fetched_in_turn http_get now sleep fuel scraper users st seqs st'
    /\ all_repos = (acc ++ List.concat seqs)%list.
Proof.
  induction users as [|user users IH]; intros acc all_repos st st';
    cbn [for_each].
  - intros H; injection H as <- <-. exists []. split; [constructor|].
    cbn. now rewrite app_nil_r.
  - rewrite Run.bind_and_then. unfold extend_with_repos at 1.
    rewrite Run.bind_and_then.
    destruct (get_user_repositories http_get now sleep fuel scraper
                (u_login user) 500 st) as [[repos|e|] st1] eqn:E;
      cbn [and_then]; try discriminate.
    unfold ret at 1. cbn [and_then]. intros H.
    destruct (IH _ _ _ _ H) as [seqs [F ->]].
    exists (repos :: seqs). split; [econstructor; eassumption|].
    cbn [List.concat]. now rewrite <- app_assoc.
Qed.

End Facts.

Section Statements.

Variable World : Type.
Variable http_get : World -> request -> result response * World.
Variable now : World -> Q.
Variable sleep : Q -> World -> World.

Variable fuel : nat.

(** What l.150-154 say: when the line typed at the prompt is empty once
    stripped, the message is printed and [main] returns; nothing is
    requested and the world is left as it was. *)
Lemma token_required (line : string) (st : state World) :
  PyStr.is_ascii line = true ->
  PyStr.strip line = "" ->
  main http_get now sleep fuel line st
  = (Ret tt,
     {| world := world st;
        trace := EvPrint "Token is required. Exiting..."
                 :: EvInput "Enter your GitHub token: " :: trace st |})
  /\ count_gets any_request
       (trace (snd (main http_get now sleep fuel line st)))
     = count_gets any_request (trace st).
Proof.
  intros _ T. unfold main. rewrite Run.bind_and_then.
  unfold emit at 1. cbn [and_then]. rewrite T. cbn [String.eqb].
  split; reflexivity.
Qed.

(** What l.157-175 say: the rows handed to [repositories.csv] are the
    concatenation of what [get_user_repositories] returned for each
    user, the users taken in the order [search_users] returned them. *)
Lemma repositories_in_turn (line : string) (st st' : state World) :
  PyStr.is_ascii line = true ->
  PyStr.strip line <> "" ->
  main http_get now sleep fuel line st = (Ret tt, st') ->
  exists users st1 seqs st2,
    search_users http_get now sleep fuel (__init__ (PyStr.strip line))
      "Bangalore" 100 (recorded st (EvInput "Enter your GitHub token: "))
    = (Ret users, st1)
    /\ fetched_in_turn http_get now sleep fuel (__init__ (PyStr.strip line))
         users (recorded st1 (EvUsersCsv "users.csv" users)) seqs st2
    /\ exists msg,
         trace st' = EvPrint msg
                     :: EvReposCsv "repositories.csv" (List.concat seqs)
                     :: trace st2.
Proof.
  intros _ T. unfold main. rewrite Run.bind_and_then.
  unfold emit at 1. cbn [and_then].
  destruct (String.eqb_spec (PyStr.strip line) "") as [E|_]; [contradiction|].
  rewrite Run.bind_and_then.
  destruct (search_users http_get now sleep fuel _ _ _ _)
    as [[users|e|] st1]; cbn [and_then]; try discriminate.
  rewrite Run.bind_and_then. unfold emit at 1. cbn [and_then].
  rewrite Run.bind_and_then.
  destruct (for_each _ users [] _) as [[all_repos|e|] st2] eqn:F;
    cbn [and_then]; try discriminate.
  apply extend_in_turn in F as [seqs [F ->]]. cbn [app].
  unfold bind, emit. intros H; injection H as <-.
  exists users, st1, seqs, st2. split; [reflexivity|]. split; [exact F|].
  eexists. reflexivity.
Qed.

End Statements.

End Main.

(* ------------------------------------------------------------------ *)
(** * More about the request loop *)

Module Attempts.

Section Facts.

Variable World : Type.
Variable http_get : World -> request -> result response * World.
Variable now : World -> Q.
Variable sleep : Q -> World -> World.

Lemma extends_refl (P : event -> Prop) (st : state World) :
  extends_with P st st.
Proof. exists []. split; [reflexivity | constructor]. Qed.

Lemma extends_trans (P : event -> Prop) (st1 st2 st3 : state World) :
  extends_with P st1 st2 -> extends_with P st2 st3 -> extends_with P st1 st3.
Proof.
  intros [n1 [T1 F1]] [n2 [T2 F2]]. exists (n2 ++ n1)%list.
  split; [now rewrite T2, T1, app_assoc | now apply Forall_app].
Qed.

Lemma extends_recorded (P : event -> Prop) (st : state World) (e : event) :
  P e -> extends_with P st (recorded st e).
Proof. intros H. exists [e]. split; [reflexivity | now constructor]. Qed.

(** What follows a call extends what the call left. *)
Lemma extends_and_then (P : event -> Prop) {A B} (st : state World)
    (r : outcome A * state World)
    (k : A -> state World -> outcome B * state World) :
  extends_with P st (snd r) ->
  (forall a st1, extends_with P st1 (snd (k a st1))) ->
  extends_with P st (snd (and_then r k)).
Proof.
  intros H K. destruct r as [[a|e|] st1]; cbn [and_then snd] in *;
    [|exact H | exact H].
  eapply extends_trans; [exact H | apply K].
Qed.

Lemma sleep_time_ge_1 (reset : Z) (t : Q) : (1 <= sleep_time reset t)%Q.
Proof.
  unfold sleep_time.
  pose proof (Q.le_max_r (inject_Z reset - t) 0) as H.
  rewrite <- (Qplus_0_l 1) at 1. apply Qplus_le_compat; [exact H | apply Qle_refl].
Qed.

Variable self : GitHubScraper.
Variable url : string.
Variable params : option (list (string * json)).

(** Whatever its outcome, a call records attempts of its own request,
    waits of a second or more and log lines, and nothing else. *)
Lemma make_request_attempts (fuel : nat) :
  forall st : state World,
  extends_with (attempt_of (get_request self url params)) st
    (snd (_make_request http_get now sleep fuel self url params st)).
Proof.
  induction fuel as [|fuel IH]; intros st; [apply extends_refl|].
  rewrite Run.make_request_step; cbn zeta.
  set (r := get_request self url params) in *.
  set (st1 := answered st r _ _).
  assert (E1 : extends_with (attempt_of r) st st1)
    by (exists [EvGet r (fst (http_get (world st) r))];
        split; [reflexivity | now repeat constructor]).
  destruct (fst (http_get (world st) r)) as [e|resp]; [exact E1|].
  destruct (status_code resp =? 200).
  { destruct (response_json resp); exact E1. }
  destruct (status_code resp =? 403).
  - destruct (rate_limit_reset resp) as [e|reset]; [exact E1|].
    eapply extends_trans; [exact E1|].
    eapply extends_trans; [|apply IH].
    eexists [EvSleep _; EvLog _]. split; [reflexivity|].
    repeat constructor; apply sleep_time_ge_1.
  - assert (E2 : extends_with (attempt_of r) st (logged_error st1 resp)).
    { eapply extends_trans; [exact E1|].
      eexists [EvLog _]. split; [reflexivity | now repeat constructor]. }
    destruct ((400 <=? status_code resp) && (status_code resp <? 600));
      [exact E2|].
    eapply extends_trans; [exact E2 | apply IH].
Qed.

(** X1: as long as no 403 asks for a wait that Python cannot compute or
    sleep ([waits_in_range]), when [_make_request] raises, the exception
    is the one [requests.get] raised, or [JSONDecodeError] for a 200
    whose body is not JSON, or [ValueError] for a 403 whose reset header
    is not an integer, or an [HTTPError] with the status and the body of
    a 4xx or 5xx answer other than 403. *)
Theorem make_request_raise (fuel : nat) :
  waits_in_range http_get now (get_request self url params) ->
  forall (st st' : state World) (e : exn),
  _make_request http_get now sleep fuel self url params st = (Raise e, st') ->
  request_failure http_get (get_request self url params) e.
Proof.
  intros _. induction fuel as [|fuel IH]; intros st st' e; [discriminate|].
  rewrite Run.make_request_step; cbn zeta.
  destruct (fst (http_get (world st) (get_request self url params)))
    as [e0|resp] eqn:A.
  { intros H; injection H as <- _. exists (world st). now left. }
  destruct (Z.eqb_spec (status_code resp) 200) as [S200|S200].
  { destruct (response_json resp) eqn:J; [discriminate|].
    intros H; injection H as <- _. exists (world st). right. exists resp.
    split; [exact A|]. left. auto. }
  destruct (Z.eqb_spec (status_code resp) 403) as [S403|S403].
  - destruct (rate_limit_reset resp) as [e0|reset] eqn:R; [|apply IH].
    intros H; injection H as <- _. exists (world st). right. exists resp.
    split; [exact A|]. right; left. repeat split; [exact S403 | exact R |].
    unfold rate_limit_reset in R.
    destruct (headers_get _ _); [|discriminate].
    destruct (PyStr.to_Z _); [discriminate|]. now injection R.
  - destruct ((400 <=? status_code resp) && (status_code resp <? 600)) eqn:B;
      [|apply IH].
    intros H; injection H as <- _. exists (world st). right. exists resp.
    split; [exact A|]. right; right.
    apply andb_prop in B as [B1 B2].
    apply Z.leb_le in B1. apply Z.ltb_lt in B2. auto.
Qed.

(** X4: a status that is neither 200, nor 403, nor a 4xx or 5xx (a 204
    or a 304, say) is retried at once and without a cap: against a
    server that keeps answering so, the call has not ended after any
    number of attempts, has sent one request per attempt and has never
    waited. *)
Theorem make_request_passes_over :
  (forall w, exists resp,
      fst (http_get w (get_request self url params)) = inr resp
      /\ passed_over resp) ->
  forall fuel (st : state World), exists st',
    _make_request http_get now sleep fuel self url params st = (Diverge, st')
    /\ count_events is_get (trace st')
       = (count_events is_get (trace st) + fuel)%nat
    /\ count_events is_sleep (trace st') = count_events is_sleep (trace st).
Proof.
  intros H fuel. induction fuel as [|fuel IH]; intros st.
  - exists st. cbn. split; [reflexivity | lia].
  - rewrite Run.make_request_step; cbn zeta.
    destruct (H (world st)) as [resp [A [N200 [N403 NR]]]]. rewrite A.
    destruct (Z.eqb_spec (status_code resp) 200); [contradiction|].
    destruct (Z.eqb_spec (status_code resp) 403); [contradiction|].
    destruct ((400 <=? status_code resp) && (status_code resp <? 600)) eqn:B.
    { exfalso. apply NR. apply andb_prop in B as [B1 B2].
      apply Z.leb_le in B1. apply Z.ltb_lt in B2. lia. }
    destruct (IH (logged_error
                    (answered st (get_request self url params) (inr resp)
                       (snd (http_get (world st) (get_request self url params))))
                    resp)) as [st' [E [G S]]].
    exists st'. split; [exact E|]. rewrite G, S. cbn. lia.
Qed.

(** X5: a call of [_make_request] that returns has waited exactly once
    for each 403 it received. *)
Theorem make_request_sleeps (fuel : nat) :
  forall (st st' : state World) (v : json),
  _make_request http_get now sleep fuel self url params st = (Ret v, st') ->
  (count_events is_sleep (trace st') + count_events is_403 (trace st)
   = count_events is_sleep (trace st) + count_events is_403 (trace st'))%nat.
Proof.
  induction fuel as [|fuel IH]; intros st st' v; [discriminate|].
  rewrite Run.make_request_step; cbn zeta.
  destruct (fst (http_get (world st) (get_request self url params)))
    as [e0|resp] eqn:A; [discriminate|].
  destruct (Z.eqb_spec (status_code resp) 200) as [S200|S200].
  { destruct (response_json resp); [|discriminate].
    intros H; injection H as _ <-. cbn.
    replace (status_code resp =? 403) with false; [lia|].
    symmetry. apply Z.eqb_neq. lia. }
  destruct (Z.eqb_spec (status_code resp) 403) as [S403|S403].
  - destruct (rate_limit_reset resp) as [e0|reset]; [discriminate|].
    intros H. apply IH in H. cbn in H. rewrite S403 in H. cbn in H. lia.
  - destruct ((400 <=? status_code resp) && (status_code resp <? 600));
      [discriminate|].
    intros H. apply IH in H. cbn in H.
    replace (status_code resp =? 403) with false in H; [cbn in H; lia|].
    symmetry. now apply Z.eqb_neq.
Qed.

End Facts.

End Attempts.

Lemma make_request_raise_witness :
  waits_in_range limited_then_not_found clock_at_0
    (get_request (__init__ "t") "https://api.github.com/users/ghost" None)
  /\ fst (_make_request limited_then_not_found clock_at_0 sleep_through 2
            (__init__ "t") "https://api.github.com/users/ghost" None
            (start 0%nat))
     = Raise (HTTPError 404 "Not Found")
  /\ request_failure limited_then_not_found
       (get_request (__init__ "t") "https://api.github.com/users/ghost" None)
       (HTTPError 404 "Not Found").
Proof.
  assert (W : waits_in_range limited_then_not_found clock_at_0
                (get_request (__init__ "t")
                   "https://api.github.com/users/ghost" None)).
  { intros w resp reset A S R. destruct w as [|w]; cbn in A; injection A as <-.
    - vm_compute in R. injection R as <-.
      split; [lia|]. split; [split|]; vm_compute; discriminate.
    - discriminate S. }
  split; [exact W|]. split; [reflexivity|].
  apply (@Attempts.make_request_raise nat limited_then_not_found clock_at_0
           sleep_through (__init__ "t") "https://api.github.com/users/ghost"
           None 2 W (start 0%nat)
           (snd (_make_request limited_then_not_found clock_at_0 sleep_through
                   2 (__init__ "t") "https://api.github.com/users/ghost" None
                   (start 0%nat)))).
  reflexivity.
Defined.

(** X2: whatever its outcome and however often it retries, one call of
    [_make_request] records only attempts of one and the same request
    (same URL, same parameters, the two headers of the scraper), waits
    of at least one second, and the log lines of those waits and of
    failed statuses. *)
Theorem make_request_records_attempts (World : Type)
    (http_get : World -> request -> result response * World)
    (now : World -> Q) (sleep : Q -> World -> World)
    (fuel : nat) (self : GitHubScraper) (url : string)
    (params : option (list (string * json))) (st : state World) :
  extends_with (attempt_of (get_request self url params)) st
    (snd (_make_request http_get now sleep fuel self url params st)).
Proof.
  revert st. induction fuel as [|fuel IH]; intros st;
    [apply Attempts.extends_refl|].
  rewrite Run.make_request_step; cbn zeta.
  set (r := get_request self url params) in *.
  set (st1 := answered st r _ _).
  assert (E1 : extends_with (attempt_of r) st st1)
    by (exists [EvGet r (fst (http_get (world st) r))];
        split; [reflexivity | now repeat constructor]).
  destruct (fst (http_get (world st) r)) as [e|resp]; [exact E1|].
  destruct (status_code resp =? 200).
  { destruct (response_json resp); exact E1. }
  destruct (status_code resp =? 403).
  - destruct (rate_limit_reset resp) as [e|reset]; [exact E1|].
    eapply Attempts.extends_trans; [exact E1|].
    eapply Attempts.extends_trans; [|apply IH].
    eexists [EvSleep _; EvLog _]. split; [reflexivity|].
    repeat constructor; apply Attempts.sleep_time_ge_1.
  - assert (E2 : extends_with (attempt_of r) st (logged_error st1 resp)).
    { eapply Attempts.extends_trans; [exact E1|].
      eexists [EvLog _]. split; [reflexivity | now repeat constructor]. }
    destruct ((400 <=? status_code resp) && (status_code resp <? 600));
      [exact E2|].
    eapply Attempts.extends_trans; [exact E2 | apply IH].
Qed.

Lemma make_request_passes_over_witness :
  exists st',
    _make_request (stateless (fun _ => inr no_content)) still_clock no_sleep 7
      (__init__ "t") "https://api.github.com/user" None (start tt)
    = (Diverge, st')
    /\ count_events is_get (trace st') = 7%nat
    /\ count_events is_sleep (trace st') = 0%nat.
Proof.
  apply (@Attempts.make_request_passes_over unit
           (stateless (fun _ => inr no_content)) still_clock no_sleep
           (__init__ "t") "https://api.github.com/user" None).
  intros w. exists no_content. split; [reflexivity|].
  repeat split; try discriminate. cbn. lia.
Defined.

Lemma make_request_sleeps_witness :
  let run := _make_request script_get script_now script_sleep 2
               (__init__ "t") "https://api.github.com/user" None
               (start limited_then_ok) in
  fst run = Ret (JObj [])
  /\ (count_events is_sleep (trace (snd run)) + 0
      = 0 + count_events is_403 (trace (snd run)))%nat.
Proof.
  cbv zeta. split; [reflexivity|].
  apply (@Attempts.make_request_sleeps script script_get script_now
           script_sleep (__init__ "t") "https://api.github.com/user" None 2
           (start limited_then_ok) _ (JObj [])).
  reflexivity.
Defined.

(* ------------------------------------------------------------------ *)
(** * More about the normalizers *)

Module Rows.

Lemma item_or_empty_inv (d : json) (k : string) (v : json) :
  item_or_empty d k = ok v ->
  exists c, Py.getitem d k = ok c
            /\ v = (if Py.truthy c then c else JStr "").
Proof.
  unfold item_or_empty. destruct (Py.getitem d k) as [e|c] eqn:G;
    [discriminate|]. cbn [rbind].
  intros H. exists c. split; [reflexivity|].
  destruct (Py.truthy c); injection H as <-; reflexivity.
Qed.

Lemma hireable_text_inv (d : json) (h : string) :
  hireable_text d = ok h ->
  exists c, Py.getitem d "hireable" = ok c
            /\ h = match c with
                   | JNull => ""
                   | _ => PyStr.lower (Py.str c)
                   end.
Proof.
  unfold hireable_text. destruct (Py.getitem d "hireable") as [e|c] eqn:G;
    [discriminate|]. cbn [rbind].
  intros H. exists c. split; [reflexivity|].
  destruct c; injection H as <-; reflexivity.
Qed.

Lemma license_key_inv (repo : json) (v : json) :
  license_key repo = ok v ->
  exists l, Py.get repo "license" = ok l
            /\ ((Py.truthy l = false /\ v = JStr "")
                \/ (Py.truthy l = true /\ Py.getitem l "key" = ok v)).
Proof.
  unfold license_key. destruct (Py.get repo "license") as [e|l] eqn:G;
    [discriminate|]. cbn [rbind].
  exists l. split; [reflexivity|].
  destruct (Py.truthy l) eqn:T.
  - right. split; [reflexivity|].
    destruct repo; try discriminate G. cbn in G, H |- *.
    destruct (Py.lookup "license" fields); cbn in H.
    + injection G as <-. exact H.
    + injection G as <-. discriminate T.
  - left. split; [reflexivity|]. now injection H.
Qed.

Lemma license_key_ok (repo : json) (l : json) :
  Py.get repo "license" = ok l -> license_ok l ->
  exists v, license_key repo = ok v /\ (Py.truthy l = false -> v = JStr "").
Proof.
  intros G [F|[k K]]; unfold license_key; rewrite G; cbn [rbind ok].
  - rewrite F. now exists (JStr "").
  - destruct (Py.truthy l) eqn:T; [|now exists (JStr "")].
    destruct repo; try discriminate G. cbn in G |- *.
    destruct (Py.lookup "license" fields); injection G as <-.
    + cbn. exists k. split; [exact K | discriminate].
    + discriminate T.
Qed.

End Rows.

(** X6: given ASCII text, what [clean_company_name] returns is in upper
    case, does not begin with [@], does not end with whitespace, and is
    no longer than the text it was given. *)
Theorem clean_company_name_shape (company : json) (r : string) :
  (forall s, company = JStr s -> PyStr.is_ascii s = true) ->
  clean_company_name company = ok r ->
  PyStr.upper r = r
  /\ PyStr.starts_by is_at r = false
  /\ PyStr.ends_by PyStr.isspace r = false
  /\ forall s, company = JStr s -> (String.length r <= String.length s)%nat.
Proof.
  intros _ E.
  assert (L : forall f t, String.length (PyStr.map_chars f t) = String.length t)
    by (intros f t; induction t; cbn; auto).
  assert (Lp : forall p t,
             (String.length (PyStr.lstrip_by p t) <= String.length t)%nat).
  { intros p t; induction t as [|c t IH]; cbn; [lia|].
    destruct (p c); cbn; lia. }
  assert (Rp : forall p t,
             (String.length (PyStr.rstrip_by p t) <= String.length t)%nat).
  { intros p t; induction t as [|c t IH]; cbn; [lia|].
    destruct (PyStr.rstrip_by p t); [destruct (p c)|]; cbn in *; lia. }
  unfold clean_company_name in E.
  destruct (Py.truthy company) eqn:T; cbn [negb] in E.
  - destruct company; try discriminate E. injection E as <-.
    destruct (Company.cleaned_shape s) as [He [Ha Hu]].
    repeat split; auto.
    intros s' H; injection H as <-. unfold PyStr.upper, PyStr.lstrip.
    rewrite L.
    pose proof (Lp (fun c => PyStr.mem_char c "@") (PyStr.strip s)).
    pose proof (Rp PyStr.isspace (PyStr.lstrip_by PyStr.isspace s)).
    pose proof (Lp PyStr.isspace s). unfold PyStr.strip in *. lia.
  - injection E as <-. repeat split. intros s _. cbn. lia.
Qed.

Lemma clean_company_name_shape_witness :
  PyStr.is_ascii "  @@Acme Corp " = true
  /\ clean_company_name (JStr "  @@Acme Corp ") = ok "ACME CORP"
  /\ PyStr.upper "ACME CORP" = "ACME CORP"
  /\ PyStr.starts_by is_at "ACME CORP" = false
  /\ PyStr.ends_by PyStr.isspace "ACME CORP" = false
  /\ (String.length "ACME CORP" <= String.length "  @@Acme Corp ")%nat.
Proof.
  split; [reflexivity|]. split; [reflexivity|].
  destruct (@clean_company_name_shape (JStr "  @@Acme Corp ") "ACME CORP")
    as [U [A [W L]]].
  - intros s H. injection H as <-. reflexivity.
  - reflexivity.
  - repeat split; auto.
Defined.

(** X7: when [cleaned_data] succeeds, the record had every key it
    subscripts and a [company] that is false or a string (so the
    conditions under which it never fails are also necessary); [login],
    [public_repos], [followers], [following] and [created_at] are in
    the row as they were in the record; [hireable] is [""] for null,
    ["true"] and ["false"] for the booleans. *)
Theorem cleaned_data_row (user_data : json) (row : user_row) :
  cleaned_data user_data = ok row ->
  (forall k, In k subscripted_user_keys -> has_key user_data k)
  /\ (forall c, Py.get user_data "company" = ok c -> company_ok c)
  /\ Py.getitem user_data "login" = ok (u_login row)
  /\ Py.getitem user_data "public_repos" = ok (u_public_repos row)
  /\ Py.getitem user_data "followers" = ok (u_followers row)
  /\ Py.getitem user_data "following" = ok (u_following row)
  /\ Py.getitem user_data "created_at" = ok (u_created_at row)
  /\ (Py.getitem user_data "hireable" = ok JNull -> u_hireable row = "")
  /\ (forall b, Py.getitem user_data "hireable" = ok (JBool b) ->
                u_hireable row = bool_text b).
Proof.
  unfold cleaned_data. intros E.
  destruct (Py.getitem user_data "login") as [e|login] eqn:E1;
    [discriminate|]; cbn [rbind] in E.
  destruct (item_or_empty user_data "name") as [e|name] eqn:E2;
    [discriminate|]; cbn [rbind] in E.
  destruct (Py.get user_data "company") as [e|c] eqn:E3;
    [discriminate|]; cbn [rbind] in E.
  destruct (clean_company_name c) as [e|company] eqn:E4;
    [discriminate|]; cbn [rbind] in E.
  destruct (item_or_empty user_data "location") as [e|location] eqn:E5;
    [discriminate|]; cbn [rbind] in E.
  destruct (item_or_empty user_data "email") as [e|email] eqn:E6;
    [discriminate|]; cbn [rbind] in E.
  destruct (hireable_text user_data) as [e|hireable] eqn:E7;
    [discriminate|]; cbn [rbind] in E.
  destruct (item_or_empty user_data "bio") as [e|bio] eqn:E8;
    [discriminate|]; cbn [rbind] in E.
  destruct (Py.getitem user_data "public_repos") as [e|public_repos] eqn:E9;
    [discriminate|]; cbn [rbind] in E.
  destruct (Py.getitem user_data "followers") as [e|followers] eqn:E10;
    [discriminate|]; cbn [rbind] in E.
  destruct (Py.getitem user_data "following") as [e|following] eqn:E11;
    [discriminate|]; cbn [rbind] in E.
  destruct (Py.getitem user_data "created_at") as [e|created_at] eqn:E12;
    [discriminate|]; cbn [rbind] in E.
  injection E as <-. cbn [u_login u_public_repos u_followers u_following
                           u_created_at u_hireable].
  apply Rows.item_or_empty_inv in E2 as [c2 [G2 _]].
  apply Rows.item_or_empty_inv in E5 as [c5 [G5 _]].
  apply Rows.item_or_empty_inv in E6 as [c6 [G6 _]].
  apply Rows.item_or_empty_inv in E8 as [c8 [G8 _]].
  apply Rows.hireable_text_inv in E7 as [c7 [G7 H7]].
  split; [|split].
  - intros k K. cbn in K. unfold has_key.
    repeat (destruct K as [<- | K]; [eauto|]). destruct K.
  - intros c' H. injection H as <-. unfold company_ok.
    unfold clean_company_name in E4.
    destruct (Py.truthy c) eqn:T; [|now left]. right.
    destruct c; try discriminate E4. now eexists.
  - repeat split; try reflexivity.
    + intros H. rewrite H in G7. injection G7 as <-. exact H7.
    + intros b H. rewrite H in G7. injection G7 as <-. subst hireable.
      destruct b; reflexivity.
Qed.

Lemma cleaned_data_row_witness :
  Py.getitem (bare_profile "octocat") "login" = ok (JStr "octocat")
  /\ Py.getitem (bare_profile "octocat") "followers" = ok (JNum 100)
  /\ u_hireable (bare_row "octocat") = "".
Proof.
  destruct (@cleaned_data_row (bare_profile "octocat") (bare_row "octocat")
              eq_refl) as [_ [_ [L [_ [F [_ [_ [H _]]]]]]]].
  split; [exact L|]. split; [exact F|]. apply H. reflexivity.
Defined.

(** X8: [repo_data] does not fail on a repository record that has the
    keys [full_name], [created_at], [stargazers_count],
    [watchers_count], [language], [has_projects] and [has_wiki], and
    whose [license] is absent, false, or a dict with a [key]; a null
    [language] and an absent or null [license] are the empty string in
    the row. *)
Theorem repo_data_never_fails (username repo : json) :
  (forall k, In k subscripted_repo_keys -> has_key repo k) ->
  (forall l, Py.get repo "license" = ok l -> license_ok l) ->
  exists row,
    repo_data username repo = ok row
    /\ (Py.getitem repo "language" = ok JNull -> r_language row = JStr "")
    /\ (Py.get repo "license" = ok JNull -> r_license_name row = JStr "").
Proof.
  intros K L.
  destruct (K "full_name") as [full_name E1]; [cbn; tauto|].
  destruct (K "created_at") as [created_at E2]; [cbn; tauto|].
  destruct (K "stargazers_count") as [stargazers_count E3]; [cbn; tauto|].
  destruct (K "watchers_count") as [watchers_count E4]; [cbn; tauto|].
  destruct (K "language") as [language E5]; [cbn; tauto|].
  destruct (K "has_projects") as [has_projects E6]; [cbn; tauto|].
  destruct (K "has_wiki") as [has_wiki E7]; [cbn; tauto|].
  destruct (UserRow.has_key_dict (K "full_name" (or_introl eq_refl))) as [f ->].
  destruct (Py.get (JObj f) "license") as [e|l] eqn:G.
  { cbn in G. destruct (Py.lookup "license" f); discriminate G. }
  destruct (@Rows.license_key_ok _ _ G (L l eq_refl)) as [v [E8 N8]].
  pose proof (@UserRow.item_or_empty_ok _ _ _ E5) as I5.
  unfold repo_data.
  rewrite E1; cbn [rbind ok]. rewrite E2; cbn [rbind ok].
  rewrite E3; cbn [rbind ok]. rewrite E4; cbn [rbind ok].
  rewrite I5; cbn [rbind ok]. rewrite E6; cbn [rbind ok].
  rewrite E7; cbn [rbind ok]. rewrite E8; cbn [rbind ok].
  eexists. split; [reflexivity|]. cbn [r_language r_license_name].
  split.
  - intros H. rewrite H in E5. injection E5 as <-. reflexivity.
  - intros H. apply N8. unfold ok in H. injection H as ->. reflexivity.
Qed.

Lemma repo_data_never_fails_witness :
  exists row,
    repo_data (JStr "octocat") plain_repo = ok row
    /\ r_language row = JStr "" /\ r_license_name row = JStr "".
Proof.
  destruct (@repo_data_never_fails (JStr "octocat") plain_repo)
    as [row [E [H1 H2]]].
  - intros k H. cbn in H.
    repeat (destruct H as [<- | H]; [eexists; reflexivity|]).
    destruct H.
  - intros l H. injection H as <-. left. reflexivity.
  - exists row. split; [exact E|]. split; [apply H1 | apply H2]; reflexivity.
Defined.

(** X9: when [repo_data] succeeds, the record had every key it
    subscripts and an acceptable [license]; [full_name], [created_at],
    [stargazers_count] and [watchers_count] are in the row as they were
    in the record; boolean [has_projects] and [has_wiki] are rendered as
    ["true"] or ["false"]; and [license_name] is the [key] of a license
    that is there. *)
Theorem repo_data_row (username repo : json) (row : repo_row) :
  repo_data username repo = ok row ->
  (forall k, In k subscripted_repo_keys -> has_key repo k)
  /\ (forall l, Py.get repo "license" = ok l -> license_ok l)
  /\ Py.getitem repo "full_name" = ok (r_full_name row)
  /\ Py.getitem repo "created_at" = ok (r_created_at row)
  /\ Py.getitem repo "stargazers_count" = ok (r_stargazers_count row)
  /\ Py.getitem repo "watchers_count" = ok (r_watchers_count row)
  /\ (forall b, Py.getitem repo "has_projects" = ok (JBool b) ->
                r_has_projects row = bool_text b)
  /\ (forall b, Py.getitem repo "has_wiki" = ok (JBool b) ->
                r_has_wiki row = bool_text b)
  /\ (forall l, Py.get repo "license" = ok l -> Py.truthy l = true ->
                Py.getitem l "key" = ok (r_license_name row)).
Proof.
  unfold repo_data. intros E.
  destruct (Py.getitem repo "full_name") as [e|full_name] eqn:E1;
    [discriminate|]; cbn [rbind] in E.
  destruct (Py.getitem repo "created_at") as [e|created_at] eqn:E2;
    [discriminate|]; cbn [rbind] in E.
  destruct (Py.getitem repo "stargazers_count") as [e|stargazers] eqn:E3;
    [discriminate|]; cbn [rbind] in E.
  destruct (Py.getitem repo "watchers_count") as [e|watchers] eqn:E4;
    [discriminate|]; cbn [rbind] in E.
  destruct (item_or_empty repo "language") as [e|language] eqn:E5;
    [discriminate|]; cbn [rbind] in E.
  destruct (Py.getitem repo "has_projects") as [e|has_projects] eqn:E6;
    [discriminate|]; cbn [rbind] in E.
  destruct (Py.getitem repo "has_wiki") as [e|has_wiki] eqn:E7;
    [discriminate|]; cbn [rbind] in E.
  destruct (license_key repo) as [e|license_name] eqn:E8;
    [discriminate|]; cbn [rbind] in E.
  injection E as <-. cbn [r_full_name r_created_at r_stargazers_count
                           r_watchers_count r_has_projects r_has_wiki
                           r_license_name].
  apply Rows.item_or_empty_inv in E5 as [c5 [G5 _]].
  apply Rows.license_key_inv in E8 as [l [G8 D8]].
  split; [|split].
  - intros k K. cbn in K. unfold has_key.
    repeat (destruct K as [<- | K]; [eauto|]). destruct K.
  - intros l' H. rewrite G8 in H. injection H as <-. unfold license_ok.
    destruct D8 as [[F _]|[_ D]]; [now left | right; eexists; exact D].
  - repeat split; try reflexivity.
    + intros b H. injection H as ->. destruct b; reflexivity.
    + intros b H. injection H as ->. destruct b; reflexivity.
    + intros l' H T. rewrite G8 in H. injection H as <-.
      destruct D8 as [[F _]|[_ D]]; [congruence | exact D].
Qed.

Lemma repo_data_row_witness :
  r_has_projects (sample_row (JStr "octocat") 3) = "true"
  /\ r_has_wiki (sample_row (JStr "octocat") 3) = "false"
  /\ Py.getitem (JObj [("key", JStr "mit")]) "key"
     = ok (r_license_name (sample_row (JStr "octocat") 3)).
Proof.
  destruct (@repo_data_row (JStr "octocat") (sample_repo 3)
              (sample_row (JStr "octocat") 3) eq_refl)
    as [_ [_ [_ [_ [_ [_ [P [W L]]]]]]]].
  split; [apply (P true); reflexivity|].
  split; [apply (W false); reflexivity|].
  apply L; reflexivity.
Defined.

(* ------------------------------------------------------------------ *)
(** * What the collectors record *)

Module Collectors.

Section Facts.

Variable World : Type.
Variable http_get : World -> request -> result response * World.
Variable now : World -> Q.
Variable sleep : Q -> World -> World.

Lemma extends_weaken (P R : event -> Prop) (st st' : state World) :
  (forall e, P e -> R e) -> extends_with P st st' -> extends_with R st st'.
Proof.
  intros H [new [T F]]. exists new. split; [exact T|].
  eapply Forall_impl; [exact H | exact F].
Qed.

(** Events of a kind that [P] excludes are not added. *)
Lemma extends_count (P : event -> Prop) (kind : event -> bool)
    (st st' : state World) :
  (forall e, P e -> kind e = false) -> extends_with P st st' ->
  count_events kind (trace st') = count_events kind (trace st).
Proof.
  intros H [new [-> F]]. induction F as [|e new Pe _ IH]; [reflexivity|].
  cbn. now rewrite (H e Pe), IH.
Qed.

(** An event that is in the trace stays there. *)
Lemma extends_in (P : event -> Prop) (st st' : state World) (e : event) :
  extends_with P st st' -> In e (trace st) -> In e (trace st').
Proof. intros [new [-> _]] H. apply in_or_app. now right. Qed.

Lemma for_each_extends (P : event -> Prop) {A B}
    (body : A -> B -> M World B) :
  (forall x acc st, extends_with P st (snd (body x acc st))) ->
  forall l acc st, extends_with P st (snd (for_each body l acc st)).
Proof.
  intros H l. induction l as [|x l IH]; intros acc st; cbn [for_each].
  - apply Attempts.extends_refl.
  - rewrite Run.bind_and_then. apply Attempts.extends_and_then; [apply H|].
    intros a st1. apply IH.
Qed.

Variable self : GitHubScraper.

(** A call for [url] and [params] records what [P] allows, as soon as
    [P] allows the attempts of that request. *)
Lemma make_request_extends (P : event -> Prop) (url : string)
    (params : option (list (string * json))) (fuel : nat)
    (st : state World) :
  (forall e, attempt_of (get_request self url params) e -> P e) ->
  extends_with P st
    (snd (_make_request http_get now sleep fuel self url params st)).
Proof.
  intros H. eapply extends_weaken; [exact H|].
  apply Attempts.make_request_attempts.
Qed.

Section Search.

Variable location : string.
Variable min_followers : Z.

Lemma attempt_detail (u : string) (e : event) :
  attempt_of (get_request self u None) e ->
  search_event self location min_followers e.
Proof.
  destruct e as [r a|t|l| | | |]; cbn; try tauto.
  intros ->. right. now exists u.
Qed.

Lemma attempt_page (page : Z) (e : event) :
  1 <= page ->
  attempt_of (search_request self location min_followers page) e ->
  search_event self location min_followers e.
Proof.
  intros L. destruct e as [r a|t|l| | | |]; cbn; try tauto.
  intros ->. left. now exists page.
Qed.

Lemma enrich_extends (fuel : nat) (user : json) (users : list user_row)
    (st : state World) :
  extends_with (search_event self location min_followers) st
    (snd (enrich http_get now sleep fuel self user users st)).
Proof.
  rewrite Run.enrich_step.
  destruct (rbind (Py.getitem user "url") url_of) as [e|u];
    [apply Attempts.extends_refl|].
  apply Attempts.extends_and_then.
  - apply make_request_extends. apply attempt_detail.
  - intros user_data st1. destruct (cleaned_data user_data);
      apply Attempts.extends_refl.
Qed.

Lemma search_users_from_extends (fuel : nat) :
  forall (page : Z) (users : list user_row) (st : state World),
  1 <= page ->
  extends_with (search_event self location min_followers) st
    (snd (search_users_from http_get now sleep fuel self location
            min_followers page users st)).
Proof.
  induction fuel as [|fuel IH]; intros page users st L;
    [apply Attempts.extends_refl|].
  rewrite Run.search_users_from_step.
  eapply Attempts.extends_trans;
    [apply (Attempts.extends_recorded _ st (EvLog (FetchingUsersPage page)));
     exact I|].
  apply Attempts.extends_and_then.
  - apply make_request_extends. intros e. now apply attempt_page.
  - intros response st1.
    destruct (Py.get response "items") as [e|items];
      [apply Attempts.extends_refl|].
    destruct (negb (Py.truthy items)); [apply Attempts.extends_refl|].
    destruct (rbind (Py.getitem response "items") Py.iter) as [e|l];
      [apply Attempts.extends_refl|].
    apply Attempts.extends_and_then.
    + apply for_each_extends. intros x acc st2. apply enrich_extends.
    + intros users' st2. apply IH. lia.
Qed.

Lemma fetched_row_later (st st' : state World) (row : user_row) :
  extends_with (search_event self location min_followers) st st' ->
  fetched_row (trace st) row -> fetched_row (trace st') row.
Proof.
  intros E [r [resp [ud [I H]]]]. exists r, resp, ud.
  split; [eapply extends_in; eassumption | exact H].
Qed.

Lemma enrich_fetched (fuel : nat) (user : json) (users users' : list user_row)
    (st st' : state World) :
  Forall (fetched_row (trace st)) users ->
  enrich http_get now sleep fuel self user users st = (Ret users', st') ->
  Forall (fetched_row (trace st')) users'.
Proof.
  intros F E.
  pose proof (enrich_extends fuel user users st) as X. rewrite E in X.
  cbn [snd] in X. rewrite Run.enrich_step in E.
  destruct (rbind (Py.getitem user "url") url_of) as [e|u]; [discriminate|].
  destruct (_make_request http_get now sleep fuel self u None st)
    as [[user_data|e|] st1] eqn:R; cbn [and_then] in E; try discriminate.
  destruct (cleaned_data user_data) as [e|row] eqn:C; [discriminate|].
  injection E as <- <-.
  apply Run.make_request_ret in R as [w [resp [tr [_ [T [S200 J]]]]]].
  apply Forall_app. split.
  - eapply Forall_impl; [|exact F]. intros row'. now apply fetched_row_later.
  - constructor; [|constructor].
    exists (get_request self u None), resp, user_data.
    rewrite T. repeat split; auto. now left.
Qed.

Lemma for_each_enrich_fetched (fuel : nat) (l : list json) :
  forall (users users' : list user_row) (st st' : state World),
  Forall (fetched_row (trace st)) users ->
  for_each (enrich http_get now sleep fuel self) l users st = (Ret users', st') ->
  Forall (fetched_row (trace st')) users'.
Proof.
  induction l as [|x l IH]; intros users users' st st' F; cbn [for_each].
  - intros H; injection H as <- <-. exact F.
  - rewrite Run.bind_and_then.
    destruct (enrich http_get now sleep fuel self x users st)
      as [[users1|e|] st1] eqn:E; cbn [and_then]; try discriminate.
    apply IH. eapply enrich_fetched; eassumption.
Qed.

Lemma search_users_from_fetched (fuel : nat) :
  forall (page : Z) (users users' : list user_row) (st st' : state World),
  1 <= page ->
  Forall (fetched_row (trace st)) users ->
  search_users_from http_get now sleep fuel self location min_followers
    page users st = (Ret users', st') ->
  Forall (fetched_row (trace st')) users'.
Proof.
  induction fuel as [|fuel IH]; intros page users users' st st' L F;
    [discriminate|].
  rewrite Run.search_users_from_step.
  pose proof (@make_request_extends (search_event self location min_followers)
                (base_url self ++ "/search/users")
                (Some (search_params location min_followers page)) (S fuel)
                (logged st (FetchingUsersPage page))
                (fun e => @attempt_page page e L)) as X.
  destruct (_make_request http_get now sleep (S fuel) self _ _ _)
    as [[response|e|] st1]; cbn [and_then snd] in *; try discriminate.
  assert (F1 : Forall (fetched_row (trace st1)) users).
  { eapply Forall_impl; [|exact F]. intros row. apply fetched_row_later.
    eapply Attempts.extends_trans; [|exact X].
    apply (Attempts.extends_recorded _ st (EvLog (FetchingUsersPage page))).
    exact I. }
  destruct (Py.get response "items") as [e|items]; [discriminate|].
  destruct (negb (Py.truthy items)).
  { intros H; injection H as <- <-. exact F1. }
  destruct (rbind (Py.getitem response "items") Py.iter) as [e|l];
    [discriminate|].
  destruct (for_each _ l users st1) as [[users1|e|] st2] eqn:E;
    cbn [and_then]; try discriminate.
  apply IH; [lia|]. eapply for_each_enrich_fetched; eassumption.
Qed.

(** Against a search without a last page the loop uses up any fuel. *)
Lemma search_users_from_endless :
  endless_search http_get self location min_followers ->
  forall (fuel : nat) (page : Z) (users : list user_row) (st : state World),
  fst (search_users_from http_get now sleep fuel self location min_followers
         page users st) = Diverge.
Proof.
  intros H fuel. induction fuel as [|fuel IH]; intros page users st;
    [reflexivity|].
  rewrite Run.search_users_from_step.
  destruct (H page) as [body [items [rows [NE [R [G P]]]]]].
  destruct (@Run.make_request_replies World http_get now sleep self
              (base_url self ++ "/search/users")
              (Some (search_params location min_followers page)) body R fuel
              (logged st (FetchingUsersPage page))) as [st1 [E _]].
  rewrite E. cbn [and_then]. rewrite G. cbv beta iota delta [ok].
  replace (negb (Py.truthy (JArr items))) with false
    by (destruct items; [contradiction | reflexivity]).
  rewrite (@Run.get_list_getitem _ _ _ G). cbn [rbind ok Py.iter].
  destruct (@Run.for_each_enrich World http_get now sleep self items rows P
              fuel users st1) as [st2 [E2 _]].
  rewrite E2. cbn [and_then]. apply IH.
Qed.

End Search.

Section Listing.

Variable username : json.

Lemma attempt_listing (page : Z) (e : event) :
  1 <= page ->
  attempt_of (repos_request self username page) e ->
  listing_event self username e.
Proof.
  intros L. destruct e as [r a|t|l| | | |]; cbn; try tauto.
  intros ->. now exists page.
Qed.

(** Normalizing the rows of a page records nothing. *)
Lemma for_each_add_repo_state (l : list json) :
  forall (repos : list repo_row) (st : state World),
  snd (for_each (add_repo (World := World) username) l repos st) = st.
Proof.
  induction l as [|repo l IH]; intros repos st; cbn [for_each];
    [reflexivity|].
  rewrite Run.bind_and_then. unfold add_repo at 1, bind, lift, ret.
  destruct (repo_data username repo); cbn [and_then]; [reflexivity | apply IH].
Qed.

Lemma repositories_from_extends (max_repos : Z) (fuel : nat) :
  forall (page : Z) (repos : list repo_row) (st : state World),
  1 <= page ->
  extends_with (listing_event self username) st
    (snd (repositories_from http_get now sleep fuel self username max_repos
            page repos st)).
Proof.
  induction fuel as [|fuel IH]; intros page repos st L.
  - cbn [repositories_from].
    destruct (Z.of_nat (List.length repos) <? max_repos);
      apply Attempts.extends_refl.
  - rewrite Run.repositories_from_step.
    destruct (Z.of_nat (List.length repos) <? max_repos);
      [|apply Attempts.extends_refl].
    eapply Attempts.extends_trans;
      [apply (Attempts.extends_recorded _ st
                (EvLog (FetchingRepositories username page))); exact I|].
    apply Attempts.extends_and_then.
    + apply make_request_extends. intros e. now apply attempt_listing.
    + intros response st1.
      destruct (negb (Py.truthy response)); [apply Attempts.extends_refl|].
      destruct (Py.iter response) as [e|l]; [apply Attempts.extends_refl|].
      apply Attempts.extends_and_then.
      * rewrite for_each_add_repo_state. apply Attempts.extends_refl.
      * intros repos' st2. destruct (Py.len response) as [e|n];
          [apply Attempts.extends_refl|].
        destruct (n <? 100); [apply Attempts.extends_refl|].
        apply IH. lia.
Qed.

Lemma get_user_repositories_extends (max_repos : Z) (fuel : nat)
    (st : state World) :
  extends_with (listing_event self username) st
    (snd (get_user_repositories http_get now sleep fuel self username
            max_repos st)).
Proof.
  unfold get_user_repositories. rewrite Run.bind_and_then.
  apply Attempts.extends_and_then.
  - apply repositories_from_extends. lia.
  - intros repos st1. apply Attempts.extends_refl.
Qed.

(** [len] counts what [for] goes through. *)
Lemma iter_len (v : json) (l : list json) (n : Z) :
  Py.iter v = ok l -> Py.len v = ok n -> n = Z.of_nat (List.length l).
Proof.
  destruct v; try discriminate; cbn; intros I N;
    injection I as <-; injection N as <-.
  - f_equal. induction s as [|c s IH]; cbn; congruence.
  - reflexivity.
  - now rewrite length_map.
Qed.

Lemma for_each_add_repo_length (l : list json) :
  forall (repos repos' : list repo_row) (st st' : state World),
  for_each (add_repo (World := World) username) l repos st = (Ret repos', st') ->
  List.length repos' = (List.length repos + List.length l)%nat.
Proof.
  induction l as [|repo l IH]; intros repos repos' st st'; cbn [for_each].
  - intros H; injection H as <- _. cbn. lia.
  - rewrite Run.bind_and_then.
    destruct (add_repo username repo repos st) as [[repos1|e|] st1] eqn:E;
      cbn [and_then]; try discriminate.
    apply Run.add_repo_ret in E as [_ [row [_ ->]]].
    intros H. apply IH in H. rewrite length_app in H. cbn in *. lia.
Qed.

(** Between two turns of the loop at least 100 rows are gathered, so the
    turns that open with the log line are few. *)
Lemma repositories_from_fetches (max_repos : Z) (fuel : nat) :
  forall (page : Z) (repos : list repo_row) (st : state World),
  let st' := snd (repositories_from http_get now sleep fuel self username
                    max_repos page repos st) in
  count_events is_fetch (trace st') = count_events is_fetch (trace st)
  \/ 100 * (Z.of_nat (count_events is_fetch (trace st'))
            - Z.of_nat (count_events is_fetch (trace st)) - 1)
     < max_repos - Z.of_nat (List.length repos).
Proof.
  induction fuel as [|fuel IH]; intros page repos st; cbv zeta.
  - cbn [repositories_from].
    destruct (Z.of_nat (List.length repos) <? max_repos); now left.
  - rewrite Run.repositories_from_step.
    destruct (Z.ltb_spec (Z.of_nat (List.length repos)) max_repos) as [C|C];
      [|now left].
    right.
    pose proof (@Attempts.make_request_attempts World http_get now sleep self
                  (base_url self ++ "/users/" ++ Py.str username ++ "/repos")
                  (Some (repos_params page)) (S fuel)
                  (logged st (FetchingRepositories username page))) as A.
    apply (extends_count is_fetch) in A.
    2:{ intros [r a|t|l| | | |]; cbn; try tauto. destruct l; tauto. }
    cbn [logged recorded trace count_events is_fetch] in A.
    destruct (_make_request http_get now sleep (S fuel) self _ _ _)
      as [[response|e|] st1]; cbn [and_then snd] in *; try lia.
    destruct (negb (Py.truthy response)); cbn [snd]; [lia|].
    destruct (Py.iter response) as [e|l] eqn:I; cbn [snd]; [lia|].
    pose proof (for_each_add_repo_state l repos st1) as S2.
    destruct (for_each (add_repo username) l repos st1)
      as [[repos'|e|] st2] eqn:F; cbn [and_then snd] in *; subst st2;
      try lia.
    destruct (Py.len response) as [e|n] eqn:N; cbn [snd]; [lia|].
    destruct (Z.ltb_spec n 100) as [D|D]; cbn [snd]; [lia|].
    apply for_each_add_repo_length in F.
    pose proof (iter_len _ I N) as LN.
    destruct (IH (page + 1) repos' st1) as [H|H]; lia.
Qed.

(** With no retry forced by the server, [max_repos / 100] turns (rounded
    up) are enough fuel. *)
Lemma repositories_from_settles (max_repos : Z) :
  (forall page st,
      settles (_make_request http_get now sleep 1 self
                 (base_url self ++ "/users/" ++ Py.str username ++ "/repos")
                 (Some (repos_params page)) st)) ->
  forall (fuel : nat) (page : Z) (repos : list repo_row) (st : state World),
  max_repos <= Z.of_nat (List.length repos) + 100 * Z.of_nat fuel ->
  settles (repositories_from http_get now sleep fuel self username max_repos
             page repos st).
Proof.
  intros H fuel. induction fuel as [|fuel IH]; intros page repos st B.
  - cbn [repositories_from].
    destruct (Z.ltb_spec (Z.of_nat (List.length repos)) max_repos);
      [lia | discriminate].
  - rewrite Run.repositories_from_step.
    destruct (Z.of_nat (List.length repos) <? max_repos); [|discriminate].
    specialize (H page (logged st (FetchingRepositories username page))).
    rewrite Run.make_request_mono with (fuel := 1%nat); [|lia | exact H].
    destruct (_make_request http_get now sleep 1 self _ _ _)
      as [[response|e|] st1]; cbn [and_then];
      [|discriminate | exfalso; now apply H].
    destruct (negb (Py.truthy response)); [discriminate|].
    destruct (Py.iter response) as [e|l] eqn:I; [discriminate|].
    destruct (for_each (add_repo username) l repos st1)
      as [[repos'|e|] st2] eqn:F; cbn [and_then].
    + destruct (Py.len response) as [e|n] eqn:N; [discriminate|].
      destruct (Z.ltb_spec n 100) as [D|D]; [discriminate|].
      apply for_each_add_repo_length in F.
      pose proof (iter_len _ I N) as LN.
      apply IH. lia.
    + discriminate.
    + exfalso. clear -F. revert repos st1 F.
      induction l as [|repo l IHl]; intros repos st1; cbn [for_each];
        [discriminate|].
      rewrite Run.bind_and_then. unfold add_repo at 1, bind, lift, ret.
      destruct (repo_data username repo); cbn [and_then];
        [discriminate | apply IHl].
Qed.

End Listing.

End Facts.

End Collectors.

(* ------------------------------------------------------------------ *)
(** * One turn of the search loop *)

Module Pages.

Section Facts.

Variable World : Type.
Variable http_get : World -> request -> result response * World.
Variable now : World -> Q.
Variable sleep : Q -> World -> World.

Variable self : GitHubScraper.
Variable location : string.
Variable min_followers : Z.

Lemma enriched_later (P : event -> Prop) (st st' : state World)
    (item : json) (row : user_row) :
  extends_with P st st' ->
  enriched self (trace st) item row -> enriched self (trace st') item row.
Proof.
  intros E [u [resp [ud [U [I H]]]]]. exists u, resp, ud.
  split; [exact U|]. split; [eapply Collectors.extends_in; eassumption | exact H].
Qed.

(** An item whose enrichment returns was requested, answered with a 200
    and normalized; its row is the one appended. *)
Lemma enrich_enriched (fuel : nat) (item : json) (users users' : list user_row)
    (st st' : state World) :
  enrich http_get now sleep fuel self item users st = (Ret users', st') ->
  exists row, users' = (users ++ [row])%list
              /\ enriched self (trace st') item row.
Proof.
  rewrite Run.enrich_step.
  destruct (Py.getitem item "url") as [e|v] eqn:U; [discriminate|].
  destruct v as [| | |u| |]; try discriminate. cbn [rbind url_of ok].
  destruct (_make_request http_get now sleep fuel self u None st)
    as [[user_data|e|] st1] eqn:R; cbn [and_then]; try discriminate.
  destruct (cleaned_data user_data) as [e|row] eqn:C; [discriminate|].
  intros H; injection H as <- <-.
  apply Run.make_request_ret in R as [w [resp [tr [_ [T [S200 J]]]]]].
  exists row. split; [reflexivity|]. exists u, resp, user_data.
  rewrite T. repeat split; auto. now left.
Qed.

Lemma for_each_enriched (fuel : nat) (l : list json) :
  forall (users users' : list user_row) (st st' : state World),
  for_each (enrich http_get now sleep fuel self) l users st = (Ret users', st') ->
  exists rows, users' = (users ++ rows)%list
               /\ Forall2 (enriched self (trace st')) l rows.
Proof.
  induction l as [|x l IH]; intros users users' st st'; cbn [for_each].
  - intros H; injection H as <- <-. exists []. split; [|constructor].
    now rewrite app_nil_r.
  - rewrite Run.bind_and_then.
    destruct (enrich http_get now sleep fuel self x users st)
      as [[users1|e|] st1] eqn:E; cbn [and_then]; try discriminate.
    intros F.
    pose proof (@Collectors.for_each_extends World
                  (search_event self location min_followers) _ _
                  (enrich http_get now sleep fuel self)
                  (fun y acc st0 =>
                     @Collectors.enrich_extends World http_get now sleep self
                       location min_followers fuel y acc st0)
                  l users1 st1) as X.
    rewrite F in X. cbn [snd] in X.
    apply enrich_enriched in E as [row [-> En]].
    apply IH in F as [rows [-> Fa]].
    exists (row :: rows). split; [now rewrite <- app_assoc|].
    constructor; [|exact Fa]. eapply enriched_later; eassumption.
Qed.

(** A call with fuel sends its request, however it ends. *)
Lemma make_request_asks (url : string)
    (params : option (list (string * json))) (fuel : nat) (st : state World) :
  exists a,
    In (EvGet (get_request self url params) a)
       (trace (snd (_make_request http_get now sleep (S fuel) self url params
                      st))).
Proof.
  exists (fst (http_get (world st) (get_request self url params))).
  rewrite Run.make_request_step; cbn zeta.
  set (r := get_request self url params).
  set (st1 := answered st r _ _).
  assert (I1 : In (EvGet r (fst (http_get (world st) r))) (trace st1))
    by now left.
  assert (Later : forall st2,
             In (EvGet r (fst (http_get (world st) r))) (trace st2) ->
             In (EvGet r (fst (http_get (world st) r)))
                (trace (snd (_make_request http_get now sleep fuel self url
                               params st2)))).
  { intros st2 I2. eapply Collectors.extends_in; [|exact I2].
    apply Attempts.make_request_attempts. }
  destruct (fst (http_get (world st) r)) as [e|resp]; [exact I1|].
  destruct (status_code resp =? 200).
  { destruct (response_json resp); exact I1. }
  destruct (status_code resp =? 403).
  - destruct (rate_limit_reset resp) as [e|reset]; [exact I1|].
    apply Later. now do 2 right.
  - destruct ((400 <=? status_code resp) && (status_code resp <? 600)).
    + now right.
    + apply Later. now right.
Qed.

(** A turn of the loop with fuel sends the request for its page. *)
Lemma search_users_from_asks (fuel : nat) (page : Z) (users : list user_row)
    (st : state World) :
  1 <= page ->
  exists a,
    In (EvGet (search_request self location min_followers page) a)
       (trace (snd (search_users_from http_get now sleep (S fuel) self
                      location min_followers page users st))).
Proof.
  intros L.
  destruct (make_request_asks (base_url self ++ "/search/users")
              (Some (search_params location min_followers page)) fuel
              (logged st (FetchingUsersPage page))) as [a I1].
  exists a. rewrite Run.search_users_from_step.
  eapply Collectors.extends_in; [|exact I1].
  apply (@Attempts.extends_and_then World
           (search_event self location min_followers));
    [apply Attempts.extends_refl|].
  intros response st1.
  destruct (Py.get response "items") as [e|items];
    [apply Attempts.extends_refl|].
  destruct (negb (Py.truthy items)); [apply Attempts.extends_refl|].
  destruct (rbind (Py.getitem response "items") Py.iter) as [e|l];
    [apply Attempts.extends_refl|].
  apply Attempts.extends_and_then.
  - apply Collectors.for_each_extends. intros x acc st2.
    apply Collectors.enrich_extends.
  - intros users' st2. apply Collectors.search_users_from_extends. lia.
Qed.

End Facts.

(** Against [serve_forbidden_profile] the profile request is retried
    for ever. *)
Lemma forbidden_profile_for_ever (fuel : nat) (users : list user_row)
    (st : state unit) :
  fst (enrich (stateless serve_forbidden_profile) still_clock no_sleep fuel
         (__init__ "t") (search_item 0) users st) = Diverge.
Proof.
  rewrite Run.enrich_step. cbn [search_item Py.getitem Py.lookup String.eqb
                                Ascii.eqb Bool.eqb rbind url_of ok].
  pose proof (@Run.make_request_retries_for_ever unit
                (stateless serve_forbidden_profile) still_clock no_sleep
                (__init__ "t") (user_url 0) None) as D.
  assert (H : forall w : unit, exists resp reset,
             fst (stateless serve_forbidden_profile w
                    (get_request (__init__ "t") (user_url 0) None)) = inr resp
             /\ status_code resp = 403 /\ rate_limit_reset resp = ok reset)
    by (intros w; exists forbidden, 0; repeat split).
  specialize (D H fuel st).
  destruct (_make_request _ _ _ fuel _ _ _ st) as [[v|e|] st1];
    cbn [fst] in D; try discriminate D.
  reflexivity.
Qed.

End Pages.

(** C7, as stated, fails: an empty page of the search is not enough for
    [search_users] to terminate. Here page 2 is empty, and the loop is
    never through with page 1: the profile of its one user is answered
    403 at every attempt, and [_make_request] waits and asks again
    without end. *)
Lemma search_users_waits_for_ever :
  empty_page (stateless serve_forbidden_profile) (__init__ "t")
    "Bangalore" 100 2
  /\ forall fuel,
       fst (search_users (stateless serve_forbidden_profile) still_clock
              no_sleep fuel (__init__ "t") "Bangalore" 100 (start tt))
       = Diverge.
Proof.
  split.
  - intros w resp body A S J. cbn in A. injection A as <-.
    injection J as <-. now exists (JArr []).
  - intros fuel. unfold search_users. destruct fuel as [|fuel]; [reflexivity|].
    rewrite Run.search_users_from_step.
    destruct (@Run.make_request_replies unit
                (stateless serve_forbidden_profile) still_clock no_sleep
                (__init__ "t") (base_url (__init__ "t") ++ "/search/users")
                (Some (search_params "Bangalore" 100 1))
                (JObj [("items", JArr [search_item 0])])) with
      (fuel := fuel) (st := logged (start tt) (FetchingUsersPage 1))
      as [st1 [E _]].
    { intros w. eexists. repeat split. }
    rewrite E. cbn [and_then]. cbn [Py.get Py.lookup String.eqb Ascii.eqb
                                    Bool.eqb ok Py.truthy negb].
    cbn [Py.getitem Py.lookup String.eqb Ascii.eqb Bool.eqb rbind ok Py.iter].
    cbn [for_each]. rewrite Run.bind_and_then.
    pose proof (Pages.forbidden_profile_for_ever (S fuel) [] st1) as D.
    destruct (enrich _ _ _ (S fuel) _ _ _ st1) as [[users1|e|] st2];
      cbn [fst] in D; try discriminate D.
    reflexivity.
Qed.

(** C7, amended: the loop of [search_users] starts at page 1; it returns
    only after receiving a page whose items are empty or absent; after a
    page with items, every item has been requested and normalized, its
    row appended, and the next page (the page index plus one) is asked
    for; so, when the search has an empty page and every request ends
    (none is answered 403, or with a status that is passed over, for
    ever), [search_users] terminates. *)
Theorem search_users_ends_on_empty_page (World : Type)
    (http_get : World -> request -> result response * World)
    (now : World -> Q) (sleep : Q -> World -> World)
    (self : GitHubScraper) (location : string) (min_followers : Z) :
  (forall fuel st,
      search_users http_get now sleep fuel self location min_followers st
      = search_users_from http_get now sleep fuel self location min_followers
          1 [] st)
  /\ (forall fuel page users st users' st',
        search_users_from http_get now sleep fuel self location min_followers
          page users st = (Ret users', st') ->
        exists page' w resp body items tr,
          fst (http_get w (search_request self location min_followers page'))
          = inr resp
          /\ trace st' = EvGet (search_request self location min_followers page')
                          (inr resp) :: tr
          /\ status_code resp = 200 /\ response_json resp = Some body
          /\ Py.get body "items" = ok items /\ Py.truthy items = false)
  /\ (forall fuel page users st body st1 items l users' st2,
        1 <= page ->
        _make_request http_get now sleep (S fuel) self
          (base_url self ++ "/search/users")
          (Some (search_params location min_followers page))
          (logged st (FetchingUsersPage page)) = (Ret body, st1) ->
        Py.get body "items" = ok items -> Py.truthy items = true ->
        Py.iter items = ok l ->
        for_each (enrich http_get now sleep (S fuel) self) l users st1
        = (Ret users', st2) ->
        search_users_from http_get now sleep (S fuel) self location
          min_followers page users st
        = search_users_from http_get now sleep fuel self location
            min_followers (page + 1) users' st2
        /\ (exists rows, users' = (users ++ rows)%list
                         /\ Forall2 (enriched self (trace st2)) l rows)
        /\ (fuel <> O ->
            exists a,
              In (EvGet (search_request self location min_followers (page + 1))
                    a)
                 (trace (snd (search_users_from http_get now sleep fuel self
                                location min_followers (page + 1) users'
                                st2)))))
  /\ ((forall url params st, exists fuel,
          fst (_make_request http_get now sleep fuel self url params st)
          <> Diverge) ->
      forall last, 1 <= last ->
        empty_page http_get self location min_followers last ->
        forall st, exists fuel, forall fuel', (fuel <= fuel')%nat ->
          fst (search_users http_get now sleep fuel' self location
                 min_followers st) <> Diverge).
Proof.
  split; [reflexivity|]. split; [|split].
  - intros fuel page users st users' st'. apply Run.search_users_from_ret.
  - intros fuel page users st body st1 items l users' st2 L E G T I F.
    split; [|split].
    + eapply Run.search_users_from_next; eassumption.
    + eapply Pages.for_each_enriched; eassumption.
    + intros N. destruct fuel as [|fuel]; [contradiction|].
      apply Pages.search_users_from_asks. lia.
  - intros R last L E st.
    destruct (@Run.search_users_from_ends World http_get now sleep self R
                location min_followers last E (Z.to_nat (last - 1)) 1 [] st)
      as [fuel H]; [lia|].
    exists fuel. intros fuel' F. unfold search_users.
    rewrite Run.search_users_from_mono with (fuel := fuel);
      [exact H | exact F | exact H].
Qed.

Lemma search_users_ends_on_empty_page_witness :
  exists fuel, forall fuel', (fuel <= fuel')%nat ->
    fst (search_users (stateless serve237) still_clock no_sleep fuel'
           (__init__ "t") "Bangalore" 100 (start tt)) <> Diverge.
Proof.
  refine (proj2 (proj2 (proj2
            (@search_users_ends_on_empty_page unit (stateless serve237)
               still_clock no_sleep (__init__ "t") "Bangalore" 100)))
            _ 4 _ _ (start tt)).
  - intros u p st. exists 1%nat.
    rewrite Run.make_request_step. cbn zeta. cbn [stateless fst snd].
    unfold serve237, get_request. cbn [params].
    destruct p as [ps|]; [|discriminate].
    destruct (Py.lookup "page" ps) as [[| | page | | |]|]; discriminate.
  - lia.
  - intros w resp body A S J. cbn in A. injection A as <-.
    injection J as <-. now exists (JArr []).
Defined.


(** X10: whatever the server answers and however the call ends, what
    [get_user_repositories] records are requests for pages, numbered
    from 1, of the listing of the user it was given (sorted by push
    date, descending, 100 to the page), waits and log lines; it opens at
    most [max_repos / 100] (rounded up) turns of its loop; and with a
    [max_repos] of zero or less it returns no row and requests
    nothing. *)
Theorem get_user_repositories_records (World : Type)
    (http_get : World -> request -> result response * World)
    (now : World -> Q) (sleep : Q -> World -> World)
    (fuel : nat) (self : GitHubScraper) (username : json) (max_repos : Z)
    (st : state World) :
  let run := get_user_repositories http_get now sleep fuel self username
               max_repos st in
  extends_with (listing_event self username) st (snd run)
  /\ 100 * (Z.of_nat (count_events is_fetch (trace (snd run)))
           - Z.of_nat (count_events is_fetch (trace st)))
     < Z.max 0 max_repos + 100
  /\ (max_repos <= 0 -> run = (Ret [], st)).
Proof.
  cbv zeta. split; [apply Collectors.get_user_repositories_extends|]. split.
  - pose proof (@Collectors.repositories_from_fetches World http_get now
                  sleep self username max_repos fuel 1 [] st) as H.
    cbv zeta in H. unfold get_user_repositories. rewrite Run.bind_and_then.
    destruct (repositories_from http_get now sleep fuel self username
                max_repos 1 [] st) as [[repos|e|] st1];
      unfold ret; cbn [and_then snd List.length] in *; lia.
  - intros M. unfold get_user_repositories. rewrite Run.bind_and_then.
    assert (E : repositories_from http_get now sleep fuel self username
                  max_repos 1 [] st = (Ret [], st)).
    { destruct fuel as [|fuel']; [cbn [repositories_from]
                                 | rewrite Run.repositories_from_step];
        cbn [List.length];
        (destruct (Z.ltb_spec (Z.of_nat 0) max_repos); [lia | reflexivity]). }
    rewrite E. cbn [and_then]. unfold ret, Py.slice_to.
    destruct (0 <=? max_repos); now rewrite firstn_nil.
Qed.

Lemma get_user_repositories_records_witness :
  get_user_repositories (stateless serve_run) still_clock no_sleep 3
    (__init__ "t") (JStr "octocat") 0 (start tt)
  = (Ret [], start tt).
Proof.
  apply (@get_user_repositories_records unit (stateless serve_run)
           still_clock no_sleep 3 (__init__ "t") (JStr "octocat") 0
           (start tt)).
  lia.
Defined.

(** X11: when no answer to a listing request makes [_make_request]
    retry, [get_user_repositories] ends within [max_repos / 100]
    (rounded up) turns, whatever the pages hold: unlike the user search
    it needs no empty page to stop. *)
Theorem get_user_repositories_terminates (World : Type)
    (http_get : World -> request -> result response * World)
    (now : World -> Q) (sleep : Q -> World -> World)
    (fuel : nat) (self : GitHubScraper) (username : json) (max_repos : Z)
    (st : state World) :
  (forall page st0,
      fst (_make_request http_get now sleep 1 self
             (base_url self ++ "/users/" ++ Py.str username ++ "/repos")
             (Some (repos_params page)) st0) <> Diverge) ->
  max_repos <= 100 * Z.of_nat fuel ->
  fst (get_user_repositories http_get now sleep fuel self username
         max_repos st) <> Diverge.
Proof.
  intros H B.
  pose proof (@Collectors.repositories_from_settles World http_get now sleep
                self username max_repos H fuel 1 [] st) as S.
  unfold settles in S. unfold get_user_repositories.
  rewrite Run.bind_and_then.
  destruct (repositories_from http_get now sleep fuel self username
              max_repos 1 [] st) as [[repos|e|] st1];
    unfold ret; cbn [and_then fst List.length] in *; try discriminate.
  apply S. lia.
Qed.

Lemma get_user_repositories_terminates_witness :
  fst (get_user_repositories (stateless serve_run) still_clock no_sleep 5
         (__init__ "t") (JStr "octocat") 500 (start tt)) <> Diverge.
Proof.
  apply (@get_user_repositories_terminates unit (stateless serve_run)
           still_clock no_sleep 5 (__init__ "t") (JStr "octocat") 500
           (start tt)); [|lia].
  intros page st0. rewrite Run.make_request_step. cbn. discriminate.
Defined.

(** X12: whatever the server answers and however the call ends, what
    [search_users] records are requests for pages, numbered from 1, of
    the search (query [location:<L> followers:>=<N>], 100 to the page),
    requests of a profile without parameters, waits and log lines; and
    every row it returns is the normalization of the JSON body of a 200
    answer to one of those profile requests. *)
Theorem search_users_records (World : Type)
    (http_get : World -> request -> result response * World)
    (now : World -> Q) (sleep : Q -> World -> World)
    (fuel : nat) (self : GitHubScraper) (location : string)
    (min_followers : Z) (st : state World) :
  extends_with (search_event self location min_followers) st
    (snd (search_users http_get now sleep fuel self location min_followers st))
  /\ forall users st',
       search_users http_get now sleep fuel self location min_followers st
       = (Ret users, st') ->
       Forall (fetched_row (trace st')) users.
Proof.
  split.
  - apply Collectors.search_users_from_extends. lia.
  - intros users st' E.
    apply (@Collectors.search_users_from_fetched World http_get now sleep
             self location min_followers fuel 1 [] users st st');
      [lia | constructor | exact E].
Qed.

Lemma search_users_records_witness :
  Forall (fetched_row
            (trace (snd (search_users (stateless serve_run) still_clock
                           no_sleep 2 (__init__ "t") "Bangalore" 100
                           (start tt)))))
    [bare_row (user_url 0); bare_row (user_url 1)].
Proof.
  apply (proj2 (@search_users_records unit (stateless serve_run) still_clock
                  no_sleep 2 (__init__ "t") "Bangalore" 100 (start tt))).
  vm_compute. reflexivity.
Defined.

(** X13: [search_users] has no cap on the pages: against a search whose
    every page has items, it has not ended after any number of turns. *)
Theorem search_users_never_ends (World : Type)
    (http_get : World -> request -> result response * World)
    (now : World -> Q) (sleep : Q -> World -> World)
    (self : GitHubScraper) (location : string) (min_followers : Z) :
  endless_search http_get self location min_followers ->
  forall fuel st,
    fst (search_users http_get now sleep fuel self location min_followers st)
    = Diverge.
Proof.
  intros H fuel st. unfold search_users.
  now apply Collectors.search_users_from_endless.
Qed.

Lemma search_users_never_ends_witness :
  fst (search_users (stateless serve_endless) still_clock no_sleep 50
         (__init__ "t") "Bangalore" 100 (start tt)) = Diverge.
Proof.
  apply (@search_users_never_ends unit (stateless serve_endless) still_clock
           no_sleep (__init__ "t") "Bangalore" 100).
  intros page. eexists _, [search_item 0], [bare_row (user_url 0)].
  split; [discriminate|]. split; [|split].
  - intros w. eexists. split; [reflexivity|]. split; reflexivity.
  - reflexivity.
  - constructor; [|constructor].
    exists (user_url 0), (bare_profile (user_url 0)).
    split; [reflexivity|]. split; [|reflexivity].
    intros w. eexists. split; [reflexivity|]. split; reflexivity.
Defined.

(** X17: when the first page of a listing is answered with a 200 whose
    body is not a list, [get_user_repositories] (with a positive
    [max_repos]) raises [TypeError] if the body is true (a non-empty
    object or string, a non-zero number, [true]) and returns no row if
    it is false (null, [{}], [""], 0, [false]). *)
Theorem get_user_repositories_not_a_list (World : Type)
    (http_get : World -> request -> result response * World)
    (now : World -> Q) (sleep : Q -> World -> World)
    (fuel : nat) (self : GitHubScraper) (username : json) (max_repos : Z)
    (body : json) (st : state World) :
  0 < max_repos ->
  replies http_get (repos_request self username 1) body ->
  (forall l, body <> JArr l) ->
  exists st',
    get_user_repositories http_get now sleep (S fuel) self username
      max_repos st
    = (if Py.truthy body then Raise TypeError else Ret [], st').
Proof.
  intros M R N.
  destruct (@Run.make_request_replies World http_get now sleep self
              (base_url self ++ "/users/" ++ Py.str username ++ "/repos")
              (Some (repos_params 1)) body R fuel
              (logged st (FetchingRepositories username 1))) as [st1 [E _]].
  exists st1. unfold get_user_repositories.
  rewrite Run.bind_and_then, Run.repositories_from_step. cbn [List.length].
  destruct (Z.ltb_spec (Z.of_nat 0) max_repos); [|lia].
  rewrite E. cbn [and_then].
  assert (F : and_then (Ret (@nil repo_row), st1)
                (fun repos => ret (Py.slice_to max_repos repos))
              = (Ret [], st1)).
  { cbn [and_then]. unfold ret, Py.slice_to.
    destruct (0 <=? max_repos); now rewrite firstn_nil. }
  destruct body as [|b|n|s|l|f]; cbn [Py.truthy].
  - exact F.
  - destruct b; [reflexivity | exact F].
  - destruct (n =? 0); [exact F | reflexivity].
  - destruct s as [|c s]; [exact F | reflexivity].
  - exfalso. now apply (N l).
  - destruct f as [|[k v] f]; [exact F | reflexivity].
Qed.

Lemma get_user_repositories_not_a_list_witness :
  exists st',
    get_user_repositories
      (stateless (fun _ => inr (ok200 (JObj [("message", JStr "Not Found")]))))
      still_clock no_sleep 1 (__init__ "t") (JStr "ghost") 500 (start tt)
    = (Raise TypeError, st').
Proof.
  apply (@get_user_repositories_not_a_list unit
           (stateless (fun _ => inr (ok200 (JObj [("message", JStr "Not Found")]))))
           still_clock no_sleep 0 (__init__ "t") (JStr "ghost") 500
           (JObj [("message", JStr "Not Found")]) (start tt)).
  - lia.
  - intros w. eexists. split; [reflexivity|]. split; reflexivity.
  - discriminate.
Defined.
